(** * Profile-site backend: contact, chat and video gallery handlers

    A shallow embedding of [main.py] and [schemas.py].  Handlers are
    functions in a state-and-exception monad over a [World] that holds the
    upload directory, the document store and the outcomes of the external
    operations a handler performs (opening a file, calling the store).

    Modelling conventions:
    - Python [str] is [string], holding the UTF-8 bytes of the text, so that
      every [str] has its string.  Lengths ([len], the bounds of the models)
      count characters, not bytes, and [str.lower] is the case mapping of the
      Unicode character database (version 14.0, that of Python 3.11), the
      final sigma and the dotted capital I included.  Searching for "/" and
      "." and cutting at their positions is done on the bytes, which gives
      the same pieces as on the characters.  [s[:50]] of the diagnostic
      endpoint is taken on the bytes: it is exact for ASCII messages.
    - Python [dict] is [gmap string Value]; a field of a document is [None],
      a [str] or a [datetime].
    - [Path] is [PurePosixPath] (the service runs on a POSIX host), with the
      [suffix] of Python 3.11.
    - [database.py] is not among the sources: [create_document] and
      [get_documents] follow the interface the specification gives. *)

From Stdlib Require Import ZArith Ascii String List Lia.
From stdpp Require Import base option list strings pretty gmap.

Local Open Scope string_scope.
Local Open Scope Z_scope.

(** ** Python string operations used by the handlers *)

Module PyStr.

(** *** Characters

    A [str] is held as its UTF-8 bytes.  What Python counts, slices by and
    maps the case of are characters (code points): [chars] cuts a string
    into them. *)

Definition code (c : ascii) : N := N_of_ascii c.

Definition is_continuation (c : ascii) : bool :=
  ((128 <=? code c) && (code c <? 192))%N.

(** The characters of a string, each as its bytes: a lead byte with the
    continuation bytes it announces.  A byte that starts no such sequence
    (never met in the encoding of a [str]) stands alone. *)
Fixpoint chars (s : string) : list string :=
  match s with
  | EmptyString => []
  | String a r =>
      let alone := String a EmptyString :: chars r in
      if (code a <? 192)%N then alone
      else
        match r with
        | EmptyString => alone
        | String b r1 =>
            if negb (is_continuation b) then alone
            else if (code a <? 224)%N
            then String a (String b EmptyString) :: chars r1
            else
              match r1 with
              | EmptyString => alone
              | String c r2 =>
                  if negb (is_continuation c) then alone
                  else if (code a <? 240)%N
                  then String a (String b (String c EmptyString)) :: chars r2
                  else
                    match r2 with
                    | EmptyString => alone
                    | String d r3 =>
                        if negb (is_continuation d) || negb (code a <? 248)%N
                        then alone
                        else String a (String b (String c (String d EmptyString)))
                             :: chars r3
                    end
              end
        end
  end.

(** [len(s)]: the number of characters. *)
Definition len (s : string) : nat := List.length (chars s).

(** The code point of one character; none for bytes that encode none. *)
Definition codepoint (ch : string) : option N :=
  match ch with
  | String a EmptyString => if (code a <? 128)%N then Some (code a) else None
  | String a (String b EmptyString) =>
      let v := ((code a - 192) * 64 + (code b - 128))%N in
      if (128 <=? v)%N then Some v else None
  | String a (String b (String c EmptyString)) =>
      let v := ((code a - 224) * 4096 + (code b - 128) * 64 + (code c - 128))%N in
      if ((2048 <=? v) && negb ((55296 <=? v) && (v <? 57344)))%N then Some v else None
  | String a (String b (String c (String d EmptyString))) =>
      let v := ((code a - 240) * 262144 + (code b - 128) * 4096
                + (code c - 128) * 64 + (code d - 128))%N in
      if ((65536 <=? v) && (v <? 1114112))%N then Some v else None
  | _ => None
  end.

(** The bytes of one code point. *)
Definition utf8 (v : N) : string :=
  let byte (n : N) := ascii_of_N n in
  if (v <? 128)%N then String (byte v) EmptyString
  else if (v <? 2048)%N
  then String (byte (192 + v / 64)%N) (String (byte (128 + v mod 64)%N) EmptyString)
  else if (v <? 65536)%N
  then String (byte (224 + v / 4096)%N)
         (String (byte (128 + (v / 64) mod 64)%N)
            (String (byte (128 + v mod 64)%N) EmptyString))
  else String (byte (240 + v / 262144)%N)
         (String (byte (128 + (v / 4096) mod 64)%N)
            (String (byte (128 + (v / 64) mod 64)%N)
               (String (byte (128 + v mod 64)%N) EmptyString))).

(** *** Case mapping *)

(** The simple lowercase mappings of the Unicode character database
    (version 14.0, the one of Python 3.11), as runs: from [first] to [last]
    in steps of [step], the code point [first + k * step] has the lowercase
    [lower + k * step]. *)
Definition lower_runs : list (N * N * N * N) :=
  [
   (65, 90, 1, 97); (192, 214, 1, 224); (216, 222, 1, 248); (256, 302, 2, 257);
   (306, 310, 2, 307); (313, 327, 2, 314); (330, 374, 2, 331); (376, 376, 1, 255);
   (377, 381, 2, 378); (385, 385, 1, 595); (386, 388, 2, 387); (390, 390, 1, 596);
   (391, 391, 1, 392); (393, 394, 1, 598); (395, 395, 1, 396); (398, 398, 1, 477);
   (399, 399, 1, 601); (400, 400, 1, 603); (401, 401, 1, 402); (403, 403, 1, 608);
   (404, 404, 1, 611); (406, 406, 1, 617); (407, 407, 1, 616); (408, 408, 1, 409);
   (412, 412, 1, 623); (413, 413, 1, 626); (415, 415, 1, 629); (416, 420, 2, 417);
   (422, 422, 1, 640); (423, 423, 1, 424); (425, 425, 1, 643); (428, 428, 1, 429);
   (430, 430, 1, 648); (431, 431, 1, 432); (433, 434, 1, 650); (435, 437, 2, 436);
   (439, 439, 1, 658); (440, 440, 1, 441); (444, 444, 1, 445); (452, 452, 1, 454);
   (453, 453, 1, 454); (455, 455, 1, 457); (456, 456, 1, 457); (458, 458, 1, 460);
   (459, 475, 2, 460); (478, 494, 2, 479); (497, 497, 1, 499); (498, 500, 2, 499);
   (502, 502, 1, 405); (503, 503, 1, 447); (504, 542, 2, 505); (544, 544, 1, 414);
   (546, 562, 2, 547); (570, 570, 1, 11365); (571, 571, 1, 572); (573, 573, 1, 410);
   (574, 574, 1, 11366); (577, 577, 1, 578); (579, 579, 1, 384); (580, 580, 1, 649);
   (581, 581, 1, 652); (582, 590, 2, 583); (880, 882, 2, 881); (886, 886, 1, 887);
   (895, 895, 1, 1011); (902, 902, 1, 940); (904, 906, 1, 941); (908, 908, 1, 972);
   (910, 911, 1, 973); (913, 929, 1, 945); (931, 939, 1, 963); (975, 975, 1, 983);
   (984, 1006, 2, 985); (1012, 1012, 1, 952); (1015, 1015, 1, 1016); (1017, 1017, 1, 1010);
   (1018, 1018, 1, 1019); (1021, 1023, 1, 891); (1024, 1039, 1, 1104); (1040, 1071, 1, 1072);
   (1120, 1152, 2, 1121); (1162, 1214, 2, 1163); (1216, 1216, 1, 1231); (1217, 1229, 2, 1218);
   (1232, 1326, 2, 1233); (1329, 1366, 1, 1377); (4256, 4293, 1, 11520); (4295, 4295, 1, 11559);
   (4301, 4301, 1, 11565); (5024, 5103, 1, 43888); (5104, 5109, 1, 5112); (7312, 7354, 1, 4304);
   (7357, 7359, 1, 4349); (7680, 7828, 2, 7681); (7838, 7838, 1, 223); (7840, 7934, 2, 7841);
   (7944, 7951, 1, 7936); (7960, 7965, 1, 7952); (7976, 7983, 1, 7968); (7992, 7999, 1, 7984);
   (8008, 8013, 1, 8000); (8025, 8031, 2, 8017); (8040, 8047, 1, 8032); (8072, 8079, 1, 8064);
   (8088, 8095, 1, 8080); (8104, 8111, 1, 8096); (8120, 8121, 1, 8112); (8122, 8123, 1, 8048);
   (8124, 8124, 1, 8115); (8136, 8139, 1, 8050); (8140, 8140, 1, 8131); (8152, 8153, 1, 8144);
   (8154, 8155, 1, 8054); (8168, 8169, 1, 8160); (8170, 8171, 1, 8058); (8172, 8172, 1, 8165);
   (8184, 8185, 1, 8056); (8186, 8187, 1, 8060); (8188, 8188, 1, 8179); (8486, 8486, 1, 969);
   (8490, 8490, 1, 107); (8491, 8491, 1, 229); (8498, 8498, 1, 8526); (8544, 8559, 1, 8560);
   (8579, 8579, 1, 8580); (9398, 9423, 1, 9424); (11264, 11311, 1, 11312); (11360, 11360, 1, 11361);
   (11362, 11362, 1, 619); (11363, 11363, 1, 7549); (11364, 11364, 1, 637); (11367, 11371, 2, 11368);
   (11373, 11373, 1, 593); (11374, 11374, 1, 625); (11375, 11375, 1, 592); (11376, 11376, 1, 594);
   (11378, 11378, 1, 11379); (11381, 11381, 1, 11382); (11390, 11391, 1, 575); (11392, 11490, 2, 11393);
   (11499, 11501, 2, 11500); (11506, 11506, 1, 11507); (42560, 42604, 2, 42561); (42624, 42650, 2, 42625);
   (42786, 42798, 2, 42787); (42802, 42862, 2, 42803); (42873, 42875, 2, 42874); (42877, 42877, 1, 7545);
   (42878, 42886, 2, 42879); (42891, 42891, 1, 42892); (42893, 42893, 1, 613); (42896, 42898, 2, 42897);
   (42902, 42920, 2, 42903); (42922, 42922, 1, 614); (42923, 42923, 1, 604); (42924, 42924, 1, 609);
   (42925, 42925, 1, 620); (42926, 42926, 1, 618); (42928, 42928, 1, 670); (42929, 42929, 1, 647);
   (42930, 42930, 1, 669); (42931, 42931, 1, 43859); (42932, 42946, 2, 42933); (42948, 42948, 1, 42900);
   (42949, 42949, 1, 642); (42950, 42950, 1, 7566); (42951, 42953, 2, 42952); (42960, 42960, 1, 42961);
   (42966, 42968, 2, 42967); (42997, 42997, 1, 42998); (65313, 65338, 1, 65345); (66560, 66599, 1, 66600);
   (66736, 66771, 1, 66776); (66928, 66938, 1, 66967); (66940, 66954, 1, 66979); (66956, 66962, 1, 66995);
   (66964, 66965, 1, 67003); (68736, 68786, 1, 68800); (71840, 71871, 1, 71872); (93760, 93791, 1, 93792);
   (125184, 125217, 1, 125218)
  ]%N.

(** The code points that are case-ignorable, as ranges, bounds included. *)
Definition case_ignorable_ranges : list (N * N) :=
  [
   (39, 39); (46, 46); (58, 58); (94, 94); (96, 96); (168, 168);
   (173, 173); (175, 175); (180, 180); (183, 184); (688, 879); (884, 885);
   (890, 890); (900, 901); (903, 903); (1155, 1161); (1369, 1369); (1375, 1375);
   (1425, 1469); (1471, 1471); (1473, 1474); (1476, 1477); (1479, 1479); (1524, 1524);
   (1536, 1541); (1552, 1562); (1564, 1564); (1600, 1600); (1611, 1631); (1648, 1648);
   (1750, 1757); (1759, 1768); (1770, 1773); (1807, 1807); (1809, 1809); (1840, 1866);
   (1958, 1968); (2027, 2037); (2042, 2042); (2045, 2045); (2070, 2093); (2137, 2139);
   (2184, 2184); (2192, 2193); (2200, 2207); (2249, 2306); (2362, 2362); (2364, 2364);
   (2369, 2376); (2381, 2381); (2385, 2391); (2402, 2403); (2417, 2417); (2433, 2433);
   (2492, 2492); (2497, 2500); (2509, 2509); (2530, 2531); (2558, 2558); (2561, 2562);
   (2620, 2620); (2625, 2626); (2631, 2632); (2635, 2637); (2641, 2641); (2672, 2673);
   (2677, 2677); (2689, 2690); (2748, 2748); (2753, 2757); (2759, 2760); (2765, 2765);
   (2786, 2787); (2810, 2815); (2817, 2817); (2876, 2876); (2879, 2879); (2881, 2884);
   (2893, 2893); (2901, 2902); (2914, 2915); (2946, 2946); (3008, 3008); (3021, 3021);
   (3072, 3072); (3076, 3076); (3132, 3132); (3134, 3136); (3142, 3144); (3146, 3149);
   (3157, 3158); (3170, 3171); (3201, 3201); (3260, 3260); (3263, 3263); (3270, 3270);
   (3276, 3277); (3298, 3299); (3328, 3329); (3387, 3388); (3393, 3396); (3405, 3405);
   (3426, 3427); (3457, 3457); (3530, 3530); (3538, 3540); (3542, 3542); (3633, 3633);
   (3636, 3642); (3654, 3662); (3761, 3761); (3764, 3772); (3782, 3782); (3784, 3789);
   (3864, 3865); (3893, 3893); (3895, 3895); (3897, 3897); (3953, 3966); (3968, 3972);
   (3974, 3975); (3981, 3991); (3993, 4028); (4038, 4038); (4141, 4144); (4146, 4151);
   (4153, 4154); (4157, 4158); (4184, 4185); (4190, 4192); (4209, 4212); (4226, 4226);
   (4229, 4230); (4237, 4237); (4253, 4253); (4348, 4348); (4957, 4959); (5906, 5908);
   (5938, 5939); (5970, 5971); (6002, 6003); (6068, 6069); (6071, 6077); (6086, 6086);
   (6089, 6099); (6103, 6103); (6109, 6109); (6155, 6159); (6211, 6211); (6277, 6278);
   (6313, 6313); (6432, 6434); (6439, 6440); (6450, 6450); (6457, 6459); (6679, 6680);
   (6683, 6683); (6742, 6742); (6744, 6750); (6752, 6752); (6754, 6754); (6757, 6764);
   (6771, 6780); (6783, 6783); (6823, 6823); (6832, 6862); (6912, 6915); (6964, 6964);
   (6966, 6970); (6972, 6972); (6978, 6978); (7019, 7027); (7040, 7041); (7074, 7077);
   (7080, 7081); (7083, 7085); (7142, 7142); (7144, 7145); (7149, 7149); (7151, 7153);
   (7212, 7219); (7222, 7223); (7288, 7293); (7376, 7378); (7380, 7392); (7394, 7400);
   (7405, 7405); (7412, 7412); (7416, 7417); (7468, 7530); (7544, 7544); (7579, 7679);
   (8125, 8125); (8127, 8129); (8141, 8143); (8157, 8159); (8173, 8175); (8189, 8190);
   (8203, 8207); (8216, 8217); (8228, 8228); (8231, 8231); (8234, 8238); (8288, 8292);
   (8294, 8303); (8305, 8305); (8319, 8319); (8336, 8348); (8400, 8432); (11388, 11389);
   (11503, 11505); (11631, 11631); (11647, 11647); (11744, 11775); (11823, 11823); (12293, 12293);
   (12330, 12333); (12337, 12341); (12347, 12347); (12441, 12446); (12540, 12542); (40981, 40981);
   (42232, 42237); (42508, 42508); (42607, 42610); (42612, 42621); (42623, 42623); (42652, 42655);
   (42736, 42737); (42752, 42785); (42864, 42864); (42888, 42890); (42994, 42996); (43000, 43001);
   (43010, 43010); (43014, 43014); (43019, 43019); (43045, 43046); (43052, 43052); (43204, 43205);
   (43232, 43249); (43263, 43263); (43302, 43309); (43335, 43345); (43392, 43394); (43443, 43443);
   (43446, 43449); (43452, 43453); (43471, 43471); (43493, 43494); (43561, 43566); (43569, 43570);
   (43573, 43574); (43587, 43587); (43596, 43596); (43632, 43632); (43644, 43644); (43696, 43696);
   (43698, 43700); (43703, 43704); (43710, 43711); (43713, 43713); (43741, 43741); (43756, 43757);
   (43763, 43764); (43766, 43766); (43867, 43871); (43881, 43883); (44005, 44005); (44008, 44008);
   (44013, 44013); (64286, 64286); (64434, 64450); (65024, 65039); (65043, 65043); (65056, 65071);
   (65106, 65106); (65109, 65109); (65279, 65279); (65287, 65287); (65294, 65294); (65306, 65306);
   (65342, 65342); (65344, 65344); (65392, 65392); (65438, 65439); (65507, 65507); (65529, 65531);
   (66045, 66045); (66272, 66272); (66422, 66426); (67456, 67461); (67463, 67504); (67506, 67514);
   (68097, 68099); (68101, 68102); (68108, 68111); (68152, 68154); (68159, 68159); (68325, 68326);
   (68900, 68903); (69291, 69292); (69446, 69456); (69506, 69509); (69633, 69633); (69688, 69702);
   (69744, 69744); (69747, 69748); (69759, 69761); (69811, 69814); (69817, 69818); (69821, 69821);
   (69826, 69826); (69837, 69837); (69888, 69890); (69927, 69931); (69933, 69940); (70003, 70003);
   (70016, 70017); (70070, 70078); (70089, 70092); (70095, 70095); (70191, 70193); (70196, 70196);
   (70198, 70199); (70206, 70206); (70367, 70367); (70371, 70378); (70400, 70401); (70459, 70460);
   (70464, 70464); (70502, 70508); (70512, 70516); (70712, 70719); (70722, 70724); (70726, 70726);
   (70750, 70750); (70835, 70840); (70842, 70842); (70847, 70848); (70850, 70851); (71090, 71093);
   (71100, 71101); (71103, 71104); (71132, 71133); (71219, 71226); (71229, 71229); (71231, 71232);
   (71339, 71339); (71341, 71341); (71344, 71349); (71351, 71351); (71453, 71455); (71458, 71461);
   (71463, 71467); (71727, 71735); (71737, 71738); (71995, 71996); (71998, 71998); (72003, 72003);
   (72148, 72151); (72154, 72155); (72160, 72160); (72193, 72202); (72243, 72248); (72251, 72254);
   (72263, 72263); (72273, 72278); (72281, 72283); (72330, 72342); (72344, 72345); (72752, 72758);
   (72760, 72765); (72767, 72767); (72850, 72871); (72874, 72880); (72882, 72883); (72885, 72886);
   (73009, 73014); (73018, 73018); (73020, 73021); (73023, 73029); (73031, 73031); (73104, 73105);
   (73109, 73109); (73111, 73111); (73459, 73460); (78896, 78904); (92912, 92916); (92976, 92982);
   (92992, 92995); (94031, 94031); (94095, 94111); (94176, 94177); (94179, 94180); (110576, 110579);
   (110581, 110587); (110589, 110590); (113821, 113822); (113824, 113827); (118528, 118573); (118576, 118598);
   (119143, 119145); (119155, 119170); (119173, 119179); (119210, 119213); (119362, 119364); (121344, 121398);
   (121403, 121452); (121461, 121461); (121476, 121476); (121499, 121503); (121505, 121519); (122880, 122886);
   (122888, 122904); (122907, 122913); (122915, 122916); (122918, 122922); (123184, 123197); (123566, 123566);
   (123628, 123631); (125136, 125142); (125252, 125259); (127995, 127999); (917505, 917505); (917536, 917631);
   (917760, 917999)
  ]%N.

(** The cased code points that are not case-ignorable, as ranges. *)
Definition cased_ranges : list (N * N) :=
  [
   (65, 90); (97, 122); (170, 170); (181, 181); (186, 186); (192, 214);
   (216, 246); (248, 442); (444, 447); (452, 659); (661, 687); (880, 883);
   (886, 887); (891, 893); (895, 895); (902, 902); (904, 906); (908, 908);
   (910, 929); (931, 1013); (1015, 1153); (1162, 1327); (1329, 1366); (1376, 1416);
   (4256, 4293); (4295, 4295); (4301, 4301); (4304, 4346); (4349, 4351); (5024, 5109);
   (5112, 5117); (7296, 7304); (7312, 7354); (7357, 7359); (7424, 7467); (7531, 7543);
   (7545, 7578); (7680, 7957); (7960, 7965); (7968, 8005); (8008, 8013); (8016, 8023);
   (8025, 8025); (8027, 8027); (8029, 8029); (8031, 8061); (8064, 8116); (8118, 8124);
   (8126, 8126); (8130, 8132); (8134, 8140); (8144, 8147); (8150, 8155); (8160, 8172);
   (8178, 8180); (8182, 8188); (8450, 8450); (8455, 8455); (8458, 8467); (8469, 8469);
   (8473, 8477); (8484, 8484); (8486, 8486); (8488, 8488); (8490, 8493); (8495, 8500);
   (8505, 8505); (8508, 8511); (8517, 8521); (8526, 8526); (8544, 8575); (8579, 8580);
   (9398, 9449); (11264, 11387); (11390, 11492); (11499, 11502); (11506, 11507); (11520, 11557);
   (11559, 11559); (11565, 11565); (42560, 42605); (42624, 42651); (42786, 42863); (42865, 42887);
   (42891, 42894); (42896, 42954); (42960, 42961); (42963, 42963); (42965, 42969); (42997, 42998);
   (43002, 43002); (43824, 43866); (43872, 43880); (43888, 43967); (64256, 64262); (64275, 64279);
   (65313, 65338); (65345, 65370); (66560, 66639); (66736, 66771); (66776, 66811); (66928, 66938);
   (66940, 66954); (66956, 66962); (66964, 66965); (66967, 66977); (66979, 66993); (66995, 67001);
   (67003, 67004); (68736, 68786); (68800, 68850); (71840, 71903); (93760, 93823); (119808, 119892);
   (119894, 119964); (119966, 119967); (119970, 119970); (119973, 119974); (119977, 119980); (119982, 119993);
   (119995, 119995); (119997, 120003); (120005, 120069); (120071, 120074); (120077, 120084); (120086, 120092);
   (120094, 120121); (120123, 120126); (120128, 120132); (120134, 120134); (120138, 120144); (120146, 120485);
   (120488, 120512); (120514, 120538); (120540, 120570); (120572, 120596); (120598, 120628); (120630, 120654);
   (120656, 120686); (120688, 120712); (120714, 120744); (120746, 120770); (120772, 120779); (122624, 122633);
   (122635, 122654); (125184, 125251); (127280, 127305); (127312, 127337); (127344, 127369)
  ]%N.

Definition in_ranges (ranges : list (N * N)) (v : N) : bool :=
  existsb (fun r => ((fst r <=? v) && (v <=? snd r))%N) ranges.

Definition is_case_ignorable (v : N) : bool := in_ranges case_ignorable_ranges v.
Definition is_cased (v : N) : bool := in_ranges cased_ranges v.

(** The lowercase of one code point, where the database gives one. *)
Definition to_lower (v : N) : option N :=
  match
    List.find (fun r : N * N * N * N =>
                 let '(first, last, step, _) := r in
                 ((first <=? v) && (v <=? last) && ((v - first) mod step =? 0))%N)
              lower_runs
  with
  | Some (first, _, _, lower) => Some (lower + (v - first))%N
  | None => None
  end.

(** The first character of a list that is not case-ignorable. *)
Fixpoint first_not_ignorable (l : list (option N)) : option (option N) :=
  match l with
  | [] => None
  | Some v :: rest => if is_case_ignorable v then first_not_ignorable rest else Some (Some v)
  | None :: _ => Some None
  end.

Definition cased (c : option N) : bool :=
  match c with
  | Some v => is_cased v
  | None => false
  end.

(** A capital sigma is a final one when the nearest character before it
    that is not case-ignorable is cased and the nearest such character after
    it, if any, is not. *)
Definition final_sigma (before after : list (option N)) : bool :=
  match first_not_ignorable before with
  | Some c =>
      cased c &&
      match first_not_ignorable after with
      | Some c' => negb (cased c')
      | None => true
      end
  | None => false
  end.

(** The lowercase of the characters [l], [before] being the code points
    that precede them, nearest first. *)
Fixpoint lower_chars (before : list (option N)) (l : list string) : string :=
  match l with
  | [] => EmptyString
  | ch :: rest =>
      let c := codepoint ch in
      let out :=
        match c with
        | Some 931%N =>
            utf8 (if final_sigma before (List.map codepoint rest) then 962%N else 963%N)
        | Some 304%N => utf8 105%N ++ utf8 775%N
        | Some v =>
            match to_lower v with
            | Some v' => utf8 v'
            | None => ch
            end
        | None => ch
        end in
      out ++ lower_chars (c :: before) rest
  end.

(** [s.lower()] *)
Definition lower (s : string) : string := lower_chars [] (chars s).

(** [s.split(sep)] for a one-character separator: the pieces between
    separators, empty pieces included. *)
Fixpoint split_aux (sep : ascii) (cur : string) (s : string) : list string :=
  match s with
  | EmptyString => [cur]
  | String c r =>
      if Ascii.eqb c sep then cur :: split_aux sep EmptyString r
      else split_aux sep (cur ++ String c EmptyString) r
  end.

Definition split (sep : ascii) (s : string) : list string :=
  split_aux sep EmptyString s.

(** [s.rfind(c)]: index of the last occurrence, [None] for Python's -1. *)
Fixpoint rfind (c : ascii) (s : string) : option nat :=
  match s with
  | EmptyString => None
  | String a r =>
      match rfind c r with
      | Some i => Some (S i)
      | None => if Ascii.eqb a c then Some O else None
      end
  end.

(** [s[i:]] *)
Fixpoint drop (i : nat) (s : string) : string :=
  match i, s with
  | O, _ => s
  | S j, EmptyString => EmptyString
  | S j, String _ r => drop j r
  end.

(** [s[:n]] *)
Fixpoint take (n : nat) (s : string) : string :=
  match n, s with
  | O, _ => EmptyString
  | S _, EmptyString => EmptyString
  | S m, String c r => String c (take m r)
  end.

(** [s.startswith(p)] *)
Fixpoint startswith (p s : string) : bool :=
  match p, s with
  | EmptyString, _ => true
  | String _ _, EmptyString => false
  | String a p', String b s' => Ascii.eqb a b && startswith p' s'
  end.

(** [s.endswith(p)] *)
Definition endswith (p s : string) : bool :=
  Nat.leb (String.length p) (String.length s)
  && String.eqb (drop (String.length s - String.length p) s) p.

(** [p in s] *)
Fixpoint contains (p s : string) : bool :=
  startswith p s ||
  match s with
  | EmptyString => false
  | String _ r => contains p r
  end.

End PyStr.

(** ** [pathlib]: the final component of a path and its suffix *)

Module PurePosixPath.

(** The components kept by the path parser: empty pieces and ["."] are
    dropped. *)
Definition kept (x : string) : bool :=
  negb (String.eqb x "") && negb (String.eqb x ".").

Definition parts (p : string) : list string :=
  List.filter kept (PyStr.split "/"%char p).

(** [Path(p).name]: the last component, or [''] when there is none. *)
Definition name (p : string) : string :=
  List.last (parts p) "".

(** [Path(p).suffix]:
    [i = name.rfind('.'); name[i:] if 0 < i < len(name) - 1 else ''].
    The positions are those of the bytes: the dot is one byte, so it is the
    first or the last byte exactly when it is the first or the last
    character, and the slice is the same. *)
Definition suffix (p : string) : string :=
  let n := name p in
  match PyStr.rfind "."%char n with
  | Some i =>
      if (Nat.ltb 0 i && Nat.ltb i (String.length n - 1))%bool
      then PyStr.drop i n else ""
  | None => ""
  end.

End PurePosixPath.

(** ** Values, documents and exceptions *)

(** [datetime.datetime] (naive, as the store driver returns it). *)
Record datetime := mkDatetime {
  year : nat; month : nat; day : nat;
  hour : nat; minute : nat; second : nat; microsecond : nat
}.

Module PyDatetime.

Definition digit (n : nat) : ascii := ascii_of_nat (48 + n mod 10).

(** ["%0wd" % n] for [n < 10^w] *)
Fixpoint zpad (w : nat) (n : nat) : string :=
  match w with
  | O => ""
  | S w' => zpad w' (n / 10) ++ String (digit n) ""
  end.

(** [d.isoformat(sep)]: [YYYY-MM-DD], [sep], [HH:MM:SS], with [.ffffff]
    when the microsecond is not zero. *)
Definition isoformat_sep (sep : string) (d : datetime) : string :=
  zpad 4 (year d) ++ "-" ++ zpad 2 (month d) ++ "-" ++ zpad 2 (day d) ++ sep ++
  zpad 2 (hour d) ++ ":" ++ zpad 2 (minute d) ++ ":" ++ zpad 2 (second d) ++
  (if Nat.eqb (microsecond d) 0 then "" else "." ++ zpad 6 (microsecond d)).

(** [d.isoformat()] *)
Definition isoformat (d : datetime) : string := isoformat_sep "T" d.

(** [str(d)] *)
Definition str (d : datetime) : string := isoformat_sep " " d.

End PyDatetime.

(** The values a document field holds: [None], a [str] or a [datetime]. *)
Inductive Value :=
| VNone
| VStr (s : string)
| VDatetime (d : datetime).

#[global] Instance datetime_eq_dec : EqDecision datetime.
Proof. solve_decision. Defined.
#[global] Instance Value_eq_dec : EqDecision Value.
Proof. solve_decision. Defined.

(** A document of the store, a JSON body, a [dict] of keyword arguments. *)
Abbreviation Document := (gmap string Value).

(** [d.get(key)] *)
Definition dict_get (d : Document) (key : string) : Value :=
  default VNone (d !! key).

(** [d.get(key, dflt)] *)
Definition dict_get_default (d : Document) (key : string) (dflt : Value) : Value :=
  default dflt (d !! key).

(** [str(v)] *)
Definition str_of_value (v : Value) : string :=
  match v with
  | VNone => "None"
  | VStr s => s
  | VDatetime d => PyDatetime.str d
  end.

(** Python truthiness of a value. *)
Definition truthy (v : Value) : bool :=
  match v with
  | VNone => false
  | VStr s => negb (String.eqb s "")
  | VDatetime _ => true
  end.

(** What a field validator reports. *)
Inductive FieldError :=
| Missing
| NotAString
| TooShort (min_length : nat)
| TooLong (max_length : nat)
| NotAnEmail.

Inductive Exn :=
| HTTPException (status_code : Z) (detail : string)
| ValidationError (model : string) (errors : list (string * FieldError))
| RequestValidationError (errors : list (string * FieldError))
| ResponseValidationError (errors : list (string * FieldError))
| OSError (msg : string)
| Exception (msg : string).

Module PyExn.

Definition field_error_text (e : FieldError) : string :=
  match e with
  | Missing => "field required"
  | NotAString => "str type expected"
  | TooShort n => "ensure this value has at least " ++ pretty n ++ " characters"
  | TooLong n => "ensure this value has at most " ++ pretty n ++ " characters"
  | NotAnEmail => "value is not a valid email address"
  end.

Definition errors_text (errors : list (string * FieldError)) : string :=
  String.concat "; " (List.map (fun fe => fst fe ++ ": " ++ field_error_text (snd fe)) errors).

(** [str(e)].  [OSError] and [Exception] carry their text.  The text of
    a validation error is the library's; here it lists the fields and what
    each one violates. *)
Definition str (e : Exn) : string :=
  match e with
  | HTTPException _ detail => detail
  | ValidationError model errors => "validation error for " ++ model ++ ": " ++ errors_text errors
  | RequestValidationError errors => errors_text errors
  | ResponseValidationError errors => errors_text errors
  | OSError msg => msg
  | Exception msg => msg
  end.

End PyExn.

(** ** The monad of handlers: state and exceptions

    A computation runs on a state [S] and either returns or raises; the
    state it leaves behind is kept in both cases, as a Python [dict] or the
    disk keeps what was written before an exception. *)

Inductive Result (A : Type) :=
| Ok (a : A)
| Raise (e : Exn).
Arguments Ok {A} a.
Arguments Raise {A} e.

Definition M (S A : Type) : Type := S -> Result A * S.

Definition ret {S A} (a : A) : M S A := fun s => (Ok a, s).

Definition bind {S A B} (m : M S A) (k : A -> M S B) : M S B :=
  fun s =>
    match m s with
    | (Ok a, s') => k a s'
    | (Raise e, s') => (Raise e, s')
    end.

Definition raise {S A} (e : Exn) : M S A := fun s => (Raise e, s).

(** [try: body  except ... as e: handler e] *)
Definition try_except {S A} (body : M S A) (handler : Exn -> M S A) : M S A :=
  fun s =>
    match body s with
    | (Ok a, s') => (Ok a, s')
    | (Raise e, s') => handler e s'
    end.

Definition get {S} : M S S := fun s => (Ok s, s).
Definition modify {S} (f : S -> S) : M S unit := fun s => (Ok tt, f s).

(** Lift a pure result. *)
Definition lift_result {S A} (r : Result A) : M S A := fun s => (r, s).

Declare Scope py_scope.
Delimit Scope py_scope with py.
Notation "x <- m ;; k" := (bind m (fun x => k))
  (at level 100, m at next level, right associativity) : py_scope.
Notation "m ;; k" := (bind m (fun _ => k))
  (at level 100, right associativity) : py_scope.
Local Open Scope py_scope.

(** [for x in xs: ys.append(f x)], stopping at the first exception. *)
Fixpoint for_each {S A B} (f : A -> M S B) (xs : list A) : M S (list B) :=
  match xs with
  | [] => ret []
  | x :: rest => y <- f x ;; ys <- for_each f rest ;; ret (y :: ys)
  end.

(** ** [schemas.py]: the validated models *)

Module Field.

(** [Field(..., min_length=a, max_length=b)] on a string: the bounds are on
    the number of characters. *)
Definition check_length (min_length max_length : option nat) (s : string)
  : option FieldError :=
  match min_length, max_length with
  | Some a, _ =>
      if Nat.ltb (PyStr.len s) a then Some (TooShort a)
      else match max_length with
           | Some b => if Nat.ltb b (PyStr.len s) then Some (TooLong b) else None
           | None => None
           end
  | None, Some b => if Nat.ltb b (PyStr.len s) then Some (TooLong b) else None
  | None, None => None
  end.

(** [name: str = Field(..., ...)]: a required string. *)
Definition required_str (min_length max_length : option nat) (o : option Value)
  : FieldError + string :=
  match o with
  | None => inl Missing
  | Some (VStr s) =>
      match check_length min_length max_length s with
      | Some e => inl e
      | None => inr s
      end
  | Some _ => inl NotAString
  end.

(** [name: Optional[str] = Field(None, ...)] *)
Definition optional_str (max_length : option nat) (o : option Value)
  : FieldError + option string :=
  match o with
  | None | Some VNone => inr None
  | Some (VStr s) =>
      match check_length None max_length s with
      | Some e => inl e
      | None => inr (Some s)
      end
  | Some (VDatetime _) => inl NotAString
  end.

Definition errors {A} (field : string) (r : FieldError + A)
  : list (string * FieldError) :=
  match r with
  | inl e => [(field, e)]
  | inr _ => []
  end.

Definition dump_optional (o : option string) : Value :=
  match o with
  | Some s => VStr s
  | None => VNone
  end.

End Field.

Arguments Field.check_length : simpl never.

Module ContactMessage.

Record t := mk { name : string; email : string; message : string }.

Section Validation.
(** [EmailStr]: the address validator of the library, which returns the
    normalised address or rejects. *)
Variable validate_email : string -> option string.

Definition email_field (o : option Value) : FieldError + string :=
  match o with
  | None => inl Missing
  | Some (VStr s) =>
      match validate_email s with
      | Some s' => inr s'
      | None => inl NotAnEmail
      end
  | Some _ => inl NotAString
  end.

Definition validate (body : Document) : Result t :=
  let n := Field.required_str (Some 2%nat) (Some 100%nat) (body !! "name") in
  let e := email_field (body !! "email") in
  let m := Field.required_str (Some 5%nat) (Some 2000%nat) (body !! "message") in
  match n, e, m with
  | inr n', inr e', inr m' => Ok (mk n' e' m')
  | _, _, _ =>
      Raise (ValidationError "ContactMessage"
               (Field.errors "name" n ++ Field.errors "email" e ++ Field.errors "message" m))
  end.

(** The constraints of the model, on a record handed to the store. *)
Definition valid (d : Document) : bool :=
  match validate d with Ok _ => true | Raise _ => false end.
End Validation.

Definition model_dump (m : t) : Document :=
  {[ "name" := VStr (name m); "email" := VStr (email m); "message" := VStr (message m) ]}.

End ContactMessage.

Module ChatMessage.

Record t := mk { name : string; content : string }.

Definition validate (body : Document) : Result t :=
  let n := Field.required_str (Some 2%nat) (Some 60%nat) (body !! "name") in
  let c := Field.required_str (Some 1%nat) (Some 500%nat) (body !! "content") in
  match n, c with
  | inr n', inr c' => Ok (mk n' c')
  | _, _ =>
      Raise (ValidationError "ChatMessage"
               (Field.errors "name" n ++ Field.errors "content" c))
  end.

Definition valid (d : Document) : bool :=
  match validate d with Ok _ => true | Raise _ => false end.

Definition model_dump (m : t) : Document :=
  {[ "name" := VStr (name m); "content" := VStr (content m) ]}.

End ChatMessage.

Module VideoItem.

Record t := mk {
  title : string;
  url : string;
  thumbnail : option string;
  description : option string;
  created_at : option string
}.

(** The constructor called with keyword arguments [kw]; also what the
    framework runs on a JSON body. *)
Definition validate (kw : Document) : Result t :=
  let ti := Field.required_str (Some 2%nat) (Some 140%nat) (kw !! "title") in
  let u := Field.required_str None None (kw !! "url") in
  let th := Field.optional_str None (kw !! "thumbnail") in
  let de := Field.optional_str (Some 500%nat) (kw !! "description") in
  let cr := Field.optional_str None (kw !! "created_at") in
  match ti, u, th, de, cr with
  | inr ti', inr u', inr th', inr de', inr cr' => Ok (mk ti' u' th' de' cr')
  | _, _, _, _, _ =>
      Raise (ValidationError "VideoItem"
               (Field.errors "title" ti ++ Field.errors "url" u ++
                Field.errors "thumbnail" th ++ Field.errors "description" de ++
                Field.errors "created_at" cr))
  end.

Definition valid (d : Document) : bool :=
  match validate d with Ok _ => true | Raise _ => false end.

Definition model_dump (m : t) : Document :=
  {[ "title" := VStr (title m);
     "url" := VStr (url m);
     "thumbnail" := Field.dump_optional (thumbnail m);
     "description" := Field.dump_optional (description m);
     "created_at" := Field.dump_optional (created_at m) ]}.

End VideoItem.

(** ** The world a request runs in *)

(** How the disk answers [dest_path.open("wb")] and the write after it. *)
Inductive DiskOutcome :=
| DiskOk
| OpenFails (msg : string)
| WriteFails (msg : string).

(** What reading an attribute of an object gives. *)
Inductive Attr :=
| AttrValue (v : string)
| AttrMissing
| AttrRaises (e : Exn).

(** The [db] object of the database module, as [test_database] sees it. *)
Record DbHandle := mkDbHandle {
  db_name : Attr;
  db_list_collection_names : Result (list string)
}.

Record World := mkWorld {
  upload_dir : gmap string (list Byte.byte);   (* files under UPLOAD_DIR *)
  disk : DiskOutcome;
  uuid4_hex : nat -> string;                   (* the values uuid4().hex takes *)
  uuid4_calls : nat;
  db : option DbHandle;                        (* None: [db is None] *)
  store_fault : option string;                 (* Some msg: the store raises *)
  collections : gmap string (list Document);
  next_id : nat;
  environ : gmap string string
}.

Definition set_upload_dir (f : gmap string (list Byte.byte)) (w : World) : World :=
  mkWorld f (disk w) (uuid4_hex w) (uuid4_calls w) (db w) (store_fault w)
          (collections w) (next_id w) (environ w).

Definition set_uuid4_calls (n : nat) (w : World) : World :=
  mkWorld (upload_dir w) (disk w) (uuid4_hex w) n (db w) (store_fault w)
          (collections w) (next_id w) (environ w).

Definition set_store (c : gmap string (list Document)) (n : nat) (w : World) : World :=
  mkWorld (upload_dir w) (disk w) (uuid4_hex w) (uuid4_calls w) (db w) (store_fault w)
          c n (environ w).

(** [uuid.uuid4().hex] *)
Definition uuid4 : M World string :=
  fun w => (Ok (uuid4_hex w (uuid4_calls w)), set_uuid4_calls (S (uuid4_calls w)) w).

(** [with dest_path.open("wb") as f: f.write(data)], for [dest_path] the
    file [name] of the upload directory.  Opening truncates or creates the
    file; a failed write leaves the file that was opened. *)
Definition write_file (name : string) (data : list Byte.byte) : M World unit :=
  fun w =>
    match disk w with
    | DiskOk => (Ok tt, set_upload_dir (<[name := data]> (upload_dir w)) w)
    | OpenFails msg => (Raise (OSError msg), w)
    | WriteFails msg => (Raise (OSError msg), set_upload_dir (<[name := []]> (upload_dir w)) w)
    end.

(** ** The document store adapter *)

(** What [create_document] is given: a model or a [dict]. *)
Inductive Data :=
| OfContactMessage (m : ContactMessage.t)
| OfChatMessage (m : ChatMessage.t)
| OfVideoItem (m : VideoItem.t)
| OfDict (d : Document).

Definition to_document (data : Data) : Document :=
  match data with
  | OfContactMessage m => ContactMessage.model_dump m
  | OfChatMessage m => ChatMessage.model_dump m
  | OfVideoItem m => VideoItem.model_dump m
  | OfDict d => d
  end.

Definition documents_of (w : World) (collection_name : string) : list Document :=
  default [] (collections w !! collection_name).

(** Modelled from the spec: [create_document] of the database module, which
    is not part of the sources.  The spec gives the interface
    [create_document(collection, record) -> id]: the record is added to the
    named collection and the store's generated identifier is returned; a
    store that cannot be reached raises. *)
Definition create_document (collection_name : string) (data : Data) : M World nat :=
  fun w =>
    match store_fault w with
    | Some msg => (Raise (Exception msg), w)
    | None =>
        (Ok (next_id w),
         set_store (<[collection_name := (documents_of w collection_name ++ [to_document data])%list]>
                      (collections w))
                   (S (next_id w)) w)
    end.

(** A document matches a filter when it has every field of the filter with
    the same value; the empty filter matches every document. *)
Definition matches (filter doc : Document) : bool :=
  bool_decide (map_Forall (fun k v => doc !! k = Some v) filter).

(** Modelled from the spec: [get_documents] of the database module, which is
    not part of the sources.  The spec gives the interface
    [get_documents(collection, filter, limit) -> list of records] and says of
    its callers that they return at most [limit] records: the first [limit]
    matching records of the collection, in the store's order; a store that
    cannot be reached raises. *)
Definition get_documents (collection_name : string) (filter : Document) (limit : Z)
  : M World (list Document) :=
  fun w =>
    match store_fault w with
    | Some msg => (Raise (Exception msg), w)
    | None =>
        (Ok (firstn (Z.to_nat limit)
               (List.filter (matches filter) (documents_of w collection_name))), w)
    end.

(** ** [main.py]: the handlers

    A parameter with a default ([limit: int = 30]) is an [option]: [None]
    when the caller does not supply it. *)

Module PostResponse.
(** [{"status": ..., "id": ...}] *)
Record t := mk { status : string; id : nat }.
End PostResponse.

Module UploadResponse.
(** [{"status": ..., "id": ..., "item": ...}] *)
Record t := mk { status : string; id : nat; item : Document }.
End UploadResponse.

(** [except Exception as e: raise HTTPException(status_code=500, detail=str(e))] *)
Definition as_server_error {A} (e : Exn) : M World A :=
  raise (HTTPException 500 (PyExn.str e)).

Definition post_contact (msg : ContactMessage.t) : M World PostResponse.t :=
  try_except
    (doc_id <- create_document "contactmessage" (OfContactMessage msg) ;;
     ret (PostResponse.mk "ok" doc_id))
    as_server_error.

Definition get_chat_messages (limit : option Z) : M World (list Document) :=
  let limit := default 30 limit in
  try_except
    (docs <- get_documents "chatmessage" ∅ limit ;;
     ret (List.map (fun d : Document =>
                      ({[ "name" := dict_get_default d "name" (VStr "Anonym");
                          "content" := dict_get_default d "content" (VStr "") ]} : Document))
                   docs))
    as_server_error.

Definition post_chat_message (msg : ChatMessage.t) : M World PostResponse.t :=
  try_except
    (_id <- create_document "chatmessage" (OfChatMessage msg) ;;
     ret (PostResponse.mk "ok" _id))
    as_server_error.

(** The [created_iso] computed for one stored record:
    [created_at.isoformat()] for a datetime, otherwise
    [str(created_at) if created_at else None]. *)
Definition created_iso (created_at : Value) : Value :=
  match created_at with
  | VDatetime dt => VStr (PyDatetime.isoformat dt)
  | _ => if truthy created_at then VStr (str_of_value created_at) else VNone
  end.

(** The keyword arguments [list_videos] builds from one stored record. *)
Definition video_item_kwargs (d : Document) : Document :=
  let created_at := dict_get d "created_at" in
  {[ "title" := dict_get_default d "title" (VStr "");
     "url" := dict_get_default d "url" (VStr "");
     "thumbnail" := dict_get d "thumbnail";
     "description" := dict_get d "description";
     "created_at" := created_iso created_at ]}.

Definition list_videos (limit : option Z) : M World (list VideoItem.t) :=
  let limit := default 50 limit in
  try_except
    (docs <- get_documents "videoitem" ∅ limit ;;
     for_each (fun d => lift_result (VideoItem.validate (video_item_kwargs d))) docs)
    as_server_error.

Definition create_video (item : VideoItem.t) : M World PostResponse.t :=
  try_except
    (vid <- create_document "videoitem" (OfVideoItem item) ;;
     ret (PostResponse.mk "ok" vid))
    as_server_error.

(** [UploadFile]: the name the caller gave and the bytes of the file. *)
Record UploadFile := mkUploadFile {
  filename : string;
  file_bytes : list Byte.byte
}.

Definition ALLOWED_SUFFIXES : list string := [".mp4"; ".mov"; ".webm"; ".mkv"; ".avi"].

Definition UNSUPPORTED_DETAIL : string := "Podporované formáty: mp4, mov, webm, mkv, avi".

(** [description or ""] *)
Definition or_empty (description : option string) : string :=
  match description with
  | Some s => if String.eqb s "" then "" else s
  | None => ""
  end.

Definition upload_payload (title url_path : string) (description : option string) : Document :=
  {[ "title" := VStr title;
     "url" := VStr url_path;
     "description" := VStr (or_empty description);
     "thumbnail" := VNone ]}.

(** [except HTTPException: raise] followed by
    [except Exception as e: raise HTTPException(status_code=500, detail=str(e))] *)
Definition reraise_http_or_server_error {A} (e : Exn) : M World A :=
  match e with
  | HTTPException _ _ => raise e
  | _ => as_server_error e
  end.

Definition upload_video (title : string) (description : option string) (file : UploadFile)
  : M World UploadResponse.t :=
  try_except
    (let ext := PyStr.lower (PurePosixPath.suffix (filename file)) in
     if negb (bool_decide (ext ∈ ALLOWED_SUFFIXES))
     then raise (HTTPException 400 UNSUPPORTED_DETAIL)
     else
       hex <- uuid4 ;;
       let safe_name := hex ++ ext in
       write_file safe_name (file_bytes file) ;;
       let url_path := "/uploads/videos/" ++ safe_name in
       let payload := upload_payload title url_path description in
       _id <- create_document "videoitem" (OfDict payload) ;;
       ret (UploadResponse.mk "ok" _id payload))
    reraise_http_or_server_error.

(** [GET /test] *)

Module TestResponse.
(** The [response] dictionary of [test_database]. *)
Record t := mk {
  backend : string;
  database : string;
  database_url : option string;
  database_name : option string;
  connection_status : string;
  collections : list string
}.

Definition set_database (v : string) (r : t) : t :=
  mk (backend r) v (database_url r) (database_name r) (connection_status r) (collections r).
Definition set_database_url (v : option string) (r : t) : t :=
  mk (backend r) (database r) v (database_name r) (connection_status r) (collections r).
Definition set_database_name (v : option string) (r : t) : t :=
  mk (backend r) (database r) (database_url r) v (connection_status r) (collections r).
Definition set_connection_status (v : string) (r : t) : t :=
  mk (backend r) (database r) (database_url r) (database_name r) v (collections r).
Definition set_collections (v : list string) (r : t) : t :=
  mk (backend r) (database r) (database_url r) (database_name r) (connection_status r) v.

Definition initial : t :=
  mk "✅ Running" "❌ Not Available" None None "Not Connected" [].
End TestResponse.

(** [hasattr(obj, attr)]: false on [AttributeError], any other exception
    of the attribute goes through. *)
Definition hasattr (a : Attr) : Result bool :=
  match a with
  | AttrValue _ => Ok true
  | AttrMissing => Ok false
  | AttrRaises e => Raise e
  end.

(** [obj.attr] *)
Definition getattr (a : Attr) : Result string :=
  match a with
  | AttrValue v => Ok v
  | AttrMissing => Raise (Exception "AttributeError")
  | AttrRaises e => Raise e
  end.

(** [os.getenv(key)] taken as a condition: set and not empty. *)
Definition getenv_truthy (env : gmap string string) (key : string) : bool :=
  match env !! key with
  | Some v => negb (String.eqb v "")
  | None => false
  end.

(** The body of [test_database], a computation on the [response]
    dictionary: what was assigned before an exception stays assigned. *)
Definition test_database_body (db : option DbHandle) (env : gmap string string)
  : M TestResponse.t TestResponse.t :=
  try_except
    (match db with
     | Some d =>
         modify (TestResponse.set_database "✅ Available") ;;
         modify (TestResponse.set_database_url (Some "✅ Configured")) ;;
         has_name <- lift_result (hasattr (db_name d)) ;;
         name <- (if has_name : bool then lift_result (getattr (db_name d))
                  else ret "✅ Connected") ;;
         modify (TestResponse.set_database_name (Some name)) ;;
         modify (TestResponse.set_connection_status "Connected") ;;
         try_except
           (collections <- lift_result (db_list_collection_names d) ;;
            modify (TestResponse.set_collections (firstn 10 collections)) ;;
            modify (TestResponse.set_database "✅ Connected & Working"))
           (fun e =>
              modify (TestResponse.set_database
                        ("⚠️  Connected but Error: " ++ PyStr.take 50 (PyExn.str e))))
     | None => modify (TestResponse.set_database "⚠️  Available but not initialized")
     end)
    (fun e => modify (TestResponse.set_database ("❌ Error: " ++ PyStr.take 50 (PyExn.str e)))) ;;
  modify (TestResponse.set_database_url
            (Some (if getenv_truthy env "DATABASE_URL" then "✅ Set" else "❌ Not Set"))) ;;
  modify (TestResponse.set_database_name
            (Some (if getenv_truthy env "DATABASE_NAME" then "✅ Set" else "❌ Not Set"))) ;;
  get.

Definition test_database : M World TestResponse.t :=
  fun w => (fst (test_database_body (db w) (environ w) TestResponse.initial), w).

(** ** The framework around the handlers *)

(** The body of a request is validated against the model the handler is
    annotated with; the handler runs on the validated model only. *)
Definition with_body {A B} (validate : Document -> Result A) (handler : A -> M World B)
    (body : Document) : M World B :=
  match validate body with
  | Ok a => handler a
  | Raise (ValidationError _ errors) => raise (RequestValidationError errors)
  | Raise e => raise e
  end.

Definition route_post_contact (validate_email : string -> option string)
  : Document -> M World PostResponse.t :=
  with_body (ContactMessage.validate validate_email) post_contact.

Definition route_post_chat_message : Document -> M World PostResponse.t :=
  with_body ChatMessage.validate post_chat_message.

Definition route_create_video : Document -> M World PostResponse.t :=
  with_body VideoItem.validate create_video.

(** [response_model=List[ChatMessage]]: what the handler returned is
    validated against the model before it is sent. *)
Definition with_response_model {A} (validate : Document -> Result A)
    (handler : M World (list Document)) : M World (list A) :=
  out <- handler ;;
  for_each
    (fun r =>
       match validate r with
       | Ok a => ret a
       | Raise (ValidationError _ errors) => raise (ResponseValidationError errors)
       | Raise e => raise e
       end)
    out.

Definition route_get_chat_messages (limit : option Z) : M World (list ChatMessage.t) :=
  with_response_model ChatMessage.validate (get_chat_messages limit).

(** The status of the response the framework sends. *)
Definition http_status {A} (r : Result A) : Z :=
  match r with
  | Ok _ => 200
  | Raise (HTTPException status_code _) => status_code
  | Raise (RequestValidationError _) => 422
  | Raise _ => 500
  end.

(** ** Sample worlds *)

Module Sample.

(** Thirty-two hexadecimal digits; the last one counts the calls. *)
Definition hex_of_call (n : nat) : string :=
  "0123456789abcdef0123456789abcde" ++ String (PyDatetime.digit n) "".

(** An empty store and an empty upload directory, nothing failing. *)
Definition fresh : World :=
  mkWorld ∅ DiskOk hex_of_call 0
          (Some (mkDbHandle (AttrValue "site") (Ok ["chatmessage"; "videoitem"])))
          None ∅ 0 ∅.

Definition with_store_fault (msg : string) (w : World) : World :=
  mkWorld (upload_dir w) (disk w) (uuid4_hex w) (uuid4_calls w) (db w) (Some msg)
          (collections w) (next_id w) (environ w).

Definition with_disk (d : DiskOutcome) (w : World) : World :=
  mkWorld (upload_dir w) d (uuid4_hex w) (uuid4_calls w) (db w) (store_fault w)
          (collections w) (next_id w) (environ w).

Definition with_db (h : option DbHandle) (w : World) : World :=
  mkWorld (upload_dir w) (disk w) (uuid4_hex w) (uuid4_calls w) h (store_fault w)
          (collections w) (next_id w) (environ w).

Definition with_collection (name : string) (docs : list Document) (w : World) : World :=
  set_store (<[name := docs]> (collections w)) (next_id w) w.

Definition clip (name : string) : UploadFile :=
  mkUploadFile name [Byte.x00; Byte.x01; Byte.x02].

End Sample.

(** ** Vocabulary of the statements *)

(** The detail of the rejection names each allowed format. *)
Definition names_allowed_formats (detail : string) : bool :=
  forallb (fun fmt => PyStr.contains fmt detail) ["mp4"; "mov"; "webm"; "mkv"; "avi"].

(** The world after an upload that wrote [data] under [name] and stored
    [doc], starting from [w]. *)
Definition after_upload (name : string) (data : list Byte.byte) (doc : Document) (w : World)
  : World :=
  mkWorld (<[name := data]> (upload_dir w)) (disk w) (uuid4_hex w) (S (uuid4_calls w))
          (db w) (store_fault w)
          (<["videoitem" := (documents_of w "videoitem" ++ [doc])%list]> (collections w))
          (S (next_id w)) (environ w).

(** What [test_database] reports about the database, case by case. *)
Definition database_report (db : option DbHandle) : string :=
  match db with
  | None => "⚠️  Available but not initialized"
  | Some d =>
      match hasattr (db_name d) with
      | Raise e => "❌ Error: " ++ PyStr.take 50 (PyExn.str e)
      | Ok _ =>
          match db_list_collection_names d with
          | Ok _ => "✅ Connected & Working"
          | Raise e => "⚠️  Connected but Error: " ++ PyStr.take 50 (PyExn.str e)
          end
      end
  end.

(** The [created_at] of a listed item, from the stored field: the ISO text
    of a datetime, a string that is not empty as it is, and null for an
    absent field, a null and the empty string. *)
Definition created_at_listed (stored : option Value) : option string :=
  match stored with
  | Some (VDatetime dt) => Some (PyDatetime.isoformat dt)
  | Some (VStr s) => if String.eqb s "" then None else Some s
  | Some VNone | None => None
  end.

(** The same, read from the specification: every stored string is passed
    through unchanged. *)
Definition created_at_specified (stored : option Value) : option string :=
  match stored with
  | Some (VDatetime dt) => Some (PyDatetime.isoformat dt)
  | Some (VStr s) => Some s
  | Some VNone | None => None
  end.

Module SampleVideos.

Definition with_datetime : Document :=
  {[ "title" := VStr "Prejav"; "url" := VStr "https://example.org/a.mp4";
     "created_at" := VDatetime (mkDatetime 2024 3 7 9 5 0 0) ]}.

Definition with_string : Document :=
  {[ "title" := VStr "Debata"; "url" := VStr "https://example.org/b.mp4";
     "created_at" := VStr "2024-03-08T10:00:00" ]}.

Definition without_created_at : Document :=
  {[ "title" := VStr "Rozhovor"; "url" := VStr "https://example.org/c.mp4" ]}.

Definition with_empty_string : Document :=
  {[ "title" := VStr "Diskusia"; "url" := VStr "https://example.org/d.mp4";
     "created_at" := VStr "" ]}.

Definition without_title : Document :=
  {[ "url" := VStr "https://example.org/e.mp4" ]}.

Definition without_url : Document :=
  {[ "title" := VStr "Bez adresy" ]}.

Definition store (docs : list Document) : World :=
  Sample.with_collection "videoitem" docs Sample.fresh.

End SampleVideos.

(** Every record of the three collections satisfies the model of its
    collection. *)
Definition store_valid (validate_email : string -> option string) (w : World) : Prop :=
  Forall (fun d => ContactMessage.valid validate_email d = true)
         (documents_of w "contactmessage") /\
  Forall (fun d => ChatMessage.valid d = true) (documents_of w "chatmessage") /\
  Forall (fun d => VideoItem.valid d = true) (documents_of w "videoitem").

(** The world after [create_document] stored [doc] in [collection_name]. *)
Definition stored (collection_name : string) (doc : Document) (w : World) : World :=
  set_store (<[collection_name := (documents_of w collection_name ++ [doc])%list]>
               (collections w))
            (S (next_id w)) w.

(** The three handlers that store a model have one shape. *)
Definition store_model (collection_name : string) (data : Data) : M World PostResponse.t :=
  try_except
    (doc_id <- create_document collection_name data ;;
     ret (PostResponse.mk "ok" doc_id))
    as_server_error.

(** An optional string field [r] of a model, next to the value [o] it was
    read from: null for an absent field and for a null, the string itself
    otherwise. *)
Definition optional_is (o : option Value) (r : option string) : Prop :=
  match r with
  | None => o = None \/ o = Some VNone
  | Some s => o = Some (VStr s)
  end.

(** An optional string has at most [n] characters. *)
Definition at_most (n : nat) (r : option string) : Prop :=
  match r with
  | None => True
  | Some s => (PyStr.len s <= n)%nat
  end.

(** A stand-in for the address validator on sample inputs: an address is
    accepted, unchanged, when it has an at sign. *)
Definition sample_validate_email (s : string) : option string :=
  if PyStr.contains "@" s then Some s else None.

(** The requests of the HTTP surface that reach a handler of the store,
    the upload aside, and the diagnostic one. *)
Inductive Request :=
| PostContact (body : Document)
| GetChat (limit : option Z)
| PostChat (body : Document)
| ListVideos (limit : option Z)
| CreateVideo (body : Document)
| GetTest.

(** The world after one request went through its route. *)
Definition serve (validate_email : string -> option string) (req : Request) (w : World)
  : World :=
  match req with
  | PostContact body => snd (route_post_contact validate_email body w)
  | GetChat limit => snd (route_get_chat_messages limit w)
  | PostChat body => snd (route_post_chat_message body w)
  | ListVideos limit => snd (list_videos limit w)
  | CreateVideo body => snd (route_create_video body w)
  | GetTest => snd (test_database w)
  end.

(** The world after a sequence of requests, served one after the other. *)
Definition serve_all (validate_email : string -> option string) (reqs : list Request)
    (w : World) : World :=
  fold_left (fun w req => serve validate_email req w) reqs w.

(** What the response model of the chat route makes of one record. *)
Definition chat_response (r : Document) : Result ChatMessage.t :=
  match ChatMessage.validate r with
  | Ok a => Ok a
  | Raise (ValidationError _ errors) => Raise (ResponseValidationError errors)
  | Raise e => Raise e
  end.

(** The world once the upload has drawn its identifier and written [data]
    under [name], before it calls the store. *)
Definition file_written (name : string) (data : list Byte.byte) (w : World) : World :=
  set_upload_dir (<[name := data]> (upload_dir w)) (set_uuid4_calls (S (uuid4_calls w)) w).

(** [d] is a stored form of the video record [p]: it has the title, url,
    thumbnail and description of [p]; its other fields, a time stamp of the
    store for one, are free. *)
Definition stored_form (p d : Document) : Prop :=
  d !! "title" = p !! "title" /\ d !! "url" = p !! "url" /\
  d !! "thumbnail" = p !! "thumbnail" /\ d !! "description" = p !! "description".

(** [d] is a stored form of the chat record [p]: it has its name and its
    content. *)
Definition chat_stored_form (p d : Document) : Prop :=
  d !! "name" = p !! "name" /\ d !! "content" = p !! "content".

(** A handler went through [create_document]: it answers "ok" with the
    identifier the store returned, or a 500 with the text of the exception
    the store raised, and leaves the world the store left. *)
Definition through_store (collection_name : string) (data : Data) (w : World)
    (run : Result PostResponse.t * World) : Prop :=
  match create_document collection_name data w with
  | (Ok id, w') => run = (Ok (PostResponse.mk "ok" id), w')
  | (Raise e, w') => run = (Raise (HTTPException 500 (PyExn.str e)), w')
  end.

(** * Properties *)

(** ** [pathlib] and string operations on sample inputs *)

Example suffix_samples :
  List.map PurePosixPath.suffix
    ["a/b/Clip.MP4"; "../../etc/passwd"; ".mp4"; "x.mp4/"; "x."; "a.tar.gz"; ""; "/"; ".";
     ".."; "..mp4"; "a/."; "a/.."; "x.mp4/."; "x.mp4//"; "a.b/c"; "..."; "a..mp4"; "/.mp4";
     "foo.MP4 "; "x. mp4"; ".a.mp4"]
  = [".MP4"; ""; ""; ".mp4"; ""; ".gz"; ""; ""; "";
     ""; ".mp4"; ""; ""; ".mp4"; ".mp4"; ""; ""; ".mp4"; "";
     ".MP4 "; ". mp4"; ".mp4"].
Proof. reflexivity. Qed.

Example name_samples :
  List.map PurePosixPath.name ["a/b/Clip.MP4"; "x.mp4/"; "/"; "a/."; "a/.."; "x.mp4//"]
  = ["Clip.MP4"; "x.mp4"; ""; "a"; ".."; "x.mp4"].
Proof. reflexivity. Qed.

Example lower_samples :
  List.map PyStr.lower [".MP4"; ".Mov"; ".webm"; ".MKV "; "@[`{"] = [".mp4"; ".mov"; ".webm"; ".mkv "; "@[`{"].
Proof. reflexivity. Qed.

(** The Kelvin sign (U+212A), whose lowercase is the letter k. *)
Definition kelvin_sign : string :=
  String "226"%char (String "132"%char (String "170"%char EmptyString)).

Example lower_unicode_samples :
  List.map PyStr.lower
    [".M" ++ kelvin_sign ++ "V"; "ŽIVOT.MP4"; "ΑΣ"; "Σ"; "ΑΣΑ"; "ΑΣ.Σ"; "İ"; "Ǆ"; "😀"]
  = [".mkv"; "život.mp4"; "ας"; "σ"; "ασα"; "ασ.ς"; "i̇"; "ǆ"; "😀"].
Proof. vm_compute. reflexivity. Qed.

Example len_samples :
  List.map PyStr.len [""; "a"; "é"; "Život"; "日本語"; "😀"; kelvin_sign]
  = [0; 1; 1; 5; 3; 1; 1]%nat.
Proof. reflexivity. Qed.

Example isoformat_samples :
  List.map PyDatetime.isoformat
    [mkDatetime 2024 3 7 9 5 0 0; mkDatetime 1999 12 31 23 59 59 120]
  = ["2024-03-07T09:05:00"; "1999-12-31T23:59:59.000120"].
Proof. reflexivity. Qed.

(** ** Upload: the format check *)

Lemma upload_video_rejected title description file w :
  PyStr.lower (PurePosixPath.suffix (filename file)) ∉ ALLOWED_SUFFIXES ->
  upload_video title description file w
  = (Raise (HTTPException 400 UNSUPPORTED_DETAIL), w).
Proof.
  intros Hext. unfold upload_video, try_except.
  rewrite (bool_decide_eq_false_2 _ Hext). reflexivity.
Qed.

Lemma upload_video_checked title description file w :
  let ext := PyStr.lower (PurePosixPath.suffix (filename file)) in
  ext ∈ ALLOWED_SUFFIXES ->
  upload_video title description file w
  = try_except
      (hex <- uuid4 ;;
       write_file (hex ++ ext) (file_bytes file) ;;
       _id <- create_document "videoitem"
                (OfDict (upload_payload title ("/uploads/videos/" ++ hex ++ ext) description)) ;;
       ret (UploadResponse.mk "ok" _id
              (upload_payload title ("/uploads/videos/" ++ hex ++ ext) description)))
      reraise_http_or_server_error w.
Proof.
  intros ext Hext. unfold upload_video, try_except.
  fold ext. rewrite (bool_decide_eq_true_2 _ Hext). reflexivity.
Qed.

(** C1. An upload whose file has an extension that, lowercased, is not one
    of .mp4, .mov, .webm, .mkv, .avi is rejected with status 400 and a
    detail that names the allowed formats; the world is left as it was: no
    file is written and no record is created. *)
Theorem upload_video_unsupported_format title description file w :
  PyStr.lower (PurePosixPath.suffix (filename file)) ∉ ALLOWED_SUFFIXES ->
  exists detail,
    fst (upload_video title description file w) = Raise (HTTPException 400 detail) /\
    http_status (fst (upload_video title description file w)) = 400 /\
    names_allowed_formats detail = true /\
    snd (upload_video title description file w) = w /\
    upload_dir (snd (upload_video title description file w)) = upload_dir w /\
    collections (snd (upload_video title description file w)) = collections w.
Proof.
  intros Hext. exists UNSUPPORTED_DETAIL.
  rewrite (upload_video_rejected _ _ _ _ Hext). cbn [fst snd http_status].
  repeat split; reflexivity.
Qed.

Lemma upload_video_unsupported_format_witness :
  exists detail,
    fst (upload_video "Speech" None (Sample.clip "speech.EXE") Sample.fresh)
    = Raise (HTTPException 400 detail).
Proof.
  destruct (upload_video_unsupported_format "Speech" None (Sample.clip "speech.EXE") Sample.fresh)
    as (detail & H & _).
  - apply (bool_decide_unpack _). reflexivity.
  - exists detail. exact H.
Defined.

(** ** Upload: the accepted path *)

Lemma upload_video_accepted title description file w :
  let ext := PyStr.lower (PurePosixPath.suffix (filename file)) in
  let hex := uuid4_hex w (uuid4_calls w) in
  let payload := upload_payload title ("/uploads/videos/" ++ hex ++ ext) description in
  ext ∈ ALLOWED_SUFFIXES -> disk w = DiskOk -> store_fault w = None ->
  upload_video title description file w
  = (Ok (UploadResponse.mk "ok" (next_id w) payload),
     after_upload (hex ++ ext) (file_bytes file) payload w).
Proof.
  intros ext hex payload Hext Hdisk Hstore.
  rewrite upload_video_checked by exact Hext.
  unfold try_except, bind, uuid4, write_file, create_document, ret; cbn.
  rewrite Hdisk; cbn. rewrite Hstore; cbn.
  reflexivity.
Qed.

Lemma upload_video_ok_inv title description file w resp w' :
  upload_video title description file w = (Ok resp, w') ->
  PyStr.lower (PurePosixPath.suffix (filename file)) ∈ ALLOWED_SUFFIXES /\
  disk w = DiskOk /\ store_fault w = None.
Proof.
  intros H.
  destruct (decide (PyStr.lower (PurePosixPath.suffix (filename file)) ∈ ALLOWED_SUFFIXES))
    as [Hext | Hext].
  - split; [exact Hext |].
    rewrite upload_video_checked in H by exact Hext.
    unfold try_except, bind, uuid4, write_file, create_document, ret in H; cbn in H.
    destruct (disk w); cbn in H; try discriminate H.
    destruct (store_fault w); cbn in H; try discriminate H.
    split; reflexivity.
  - rewrite upload_video_rejected in H by exact Hext. discriminate H.
Qed.

Lemma drop_length_app (s p : string) : PyStr.drop (String.length s) (s ++ p) = p.
Proof. induction s as [| c s IH]; [reflexivity | exact IH]. Qed.

Lemma length_app (s p : string) :
  String.length (s ++ p) = (String.length s + String.length p)%nat.
Proof. induction s as [| c s IH]; simpl; [reflexivity | now f_equal]. Qed.

Lemma endswith_app (s p : string) : PyStr.endswith p (s ++ p) = true.
Proof.
  unfold PyStr.endswith. rewrite length_app.
  replace (String.length s + String.length p - String.length p)%nat
    with (String.length s) by lia.
  rewrite drop_length_app, String.eqb_refl, andb_true_r.
  apply Nat.leb_le. lia.
Qed.

Lemma documents_of_after_upload name data doc w :
  documents_of (after_upload name data doc w) "videoitem"
  = (documents_of w "videoitem" ++ [doc])%list.
Proof. unfold documents_of at 1. cbn. now rewrite lookup_insert_eq. Qed.

(** C2. For an accepted upload the file is stored under the generated
    hexadecimal identifier followed by the lowercased extension of the
    caller's file name, and the persisted url is "/uploads/videos/" followed
    by that name.  A file whose extension is ".MP4" is accepted when the disk
    and the store answer, and its url ends in ".mp4".  Two uploads that differ
    only in the part of the file name before the extension behave the same:
    nothing but the extension of the caller's name reaches the stored name or
    the url. *)
Theorem upload_video_stored_name title description file w :
  let ext := PyStr.lower (PurePosixPath.suffix (filename file)) in
  let hex := uuid4_hex w (uuid4_calls w) in
  (forall resp w',
     upload_video title description file w = (Ok resp, w') ->
     ext ∈ ALLOWED_SUFFIXES /\
     upload_dir w' = <[hex ++ ext := file_bytes file]> (upload_dir w) /\
     UploadResponse.item resp !! "url" = Some (VStr ("/uploads/videos/" ++ (hex ++ ext))) /\
     documents_of w' "videoitem"
     = (documents_of w "videoitem" ++ [UploadResponse.item resp])%list) /\
  (PurePosixPath.suffix (filename file) = ".MP4" ->
   disk w = DiskOk -> store_fault w = None ->
   exists resp w' u,
     upload_video title description file w = (Ok resp, w') /\
     UploadResponse.item resp !! "url" = Some (VStr u) /\
     PyStr.endswith ".mp4" u = true) /\
  (forall file',
     PyStr.lower (PurePosixPath.suffix (filename file')) = ext ->
     file_bytes file' = file_bytes file ->
     upload_video title description file' w = upload_video title description file w).
Proof.
  intros ext hex. split; [| split].
  - intros resp w' H.
    destruct (upload_video_ok_inv _ _ _ _ _ _ H) as (Hext & Hdisk & Hstore).
    rewrite (upload_video_accepted _ _ _ _ Hext Hdisk Hstore) in H.
    injection H as <- <-. fold ext hex.
    split; [exact Hext |]. split; [reflexivity |]. split; [reflexivity |].
    apply documents_of_after_upload.
  - intros Hsuffix Hdisk Hstore.
    assert (Hext : ext = ".mp4") by (subst ext; rewrite Hsuffix; reflexivity).
    assert (Hin : ext ∈ ALLOWED_SUFFIXES) by (rewrite Hext; apply list_elem_of_here).
    eexists _, _, ("/uploads/videos/" ++ hex ++ ext).
    split; [apply (upload_video_accepted _ _ _ _ Hin Hdisk Hstore) |].
    split; [reflexivity |].
    rewrite Hext.
    replace ("/uploads/videos/" ++ hex ++ ".mp4") with (("/uploads/videos/" ++ hex) ++ ".mp4")
      by reflexivity.
    apply endswith_app.
  - intros file' Hext' Hbytes. unfold upload_video.
    rewrite Hext', Hbytes. reflexivity.
Qed.

Lemma upload_video_stored_name_witness :
  exists resp w' u,
    upload_video "Speech" None (Sample.clip "../holiday/Clip.MP4") Sample.fresh = (Ok resp, w') /\
    UploadResponse.item resp !! "url" = Some (VStr u) /\
    PyStr.endswith ".mp4" u = true /\
    upload_dir w' = <["0123456789abcdef0123456789abcde0.mp4" := file_bytes (Sample.clip "x")]> ∅.
Proof.
  pose proof (upload_video_stored_name "Speech" None
                (Sample.clip "../holiday/Clip.MP4") Sample.fresh) as (Hall & Hmp4 & _).
  destruct Hmp4 as (resp & w' & u & Hrun & Hurl & Hend); [reflexivity ..|].
  exists resp, w', u. repeat split; try assumption.
  destruct (Hall resp w' Hrun) as (_ & Hdir & _). exact Hdir.
Defined.

(** A file whose extension is written with the Kelvin sign is accepted, and
    stored with the letter k; a title of two characters that take four bytes
    is one the model accepts. *)
Example upload_video_kelvin_sign :
  let run := upload_video "Áé" None (Sample.clip ("clip.M" ++ kelvin_sign ++ "V"))
               Sample.fresh in
  upload_dir (snd run) !! "0123456789abcdef0123456789abcde0.mkv"
  = Some (file_bytes (Sample.clip "clip")) /\
  List.map VideoItem.valid (documents_of (snd run) "videoitem") = [true].
Proof. split; vm_compute; reflexivity. Qed.

Lemma or_empty_default (description : option string) :
  or_empty description = default "" description.
Proof.
  destruct description as [s |]; [| reflexivity].
  cbn. destruct (String.eqb_spec s ""); [now subst | reflexivity].
Qed.

(** C4. For an accepted upload the record handed to the store has the
    caller's title, the generated url (never empty: "/uploads/videos/"
    followed by the name the file was written under, which is in the upload
    directory with the bytes of the file), the caller's description or the
    empty string when there is none, and a null thumbnail.  The response
    carries that same record and the identifier [create_document] returned
    for it. *)
Theorem upload_video_persisted_item title description file w resp w' :
  upload_video title description file w = (Ok resp, w') ->
  let name := uuid4_hex w (uuid4_calls w)
              ++ PyStr.lower (PurePosixPath.suffix (filename file)) in
  let url_path := "/uploads/videos/" ++ name in
  UploadResponse.item resp
  = {[ "title" := VStr title;
       "url" := VStr url_path;
       "description" := VStr (default "" description);
       "thumbnail" := VNone ]} /\
  url_path <> "" /\
  upload_dir w' !! name = Some (file_bytes file) /\
  create_document "videoitem" (OfDict (UploadResponse.item resp))
    (file_written name (file_bytes file) w)
  = (Ok (UploadResponse.id resp), w') /\
  documents_of w' "videoitem"
  = (documents_of w "videoitem" ++ [UploadResponse.item resp])%list /\
  UploadResponse.status resp = "ok".
Proof.
  intros H name url_path.
  destruct (upload_video_ok_inv _ _ _ _ _ _ H) as (Hext & Hdisk & Hstore).
  rewrite (upload_video_accepted _ _ _ _ Hext Hdisk Hstore) in H.
  injection H as <- <-. fold name url_path.
  split.
  - cbn [UploadResponse.item]. unfold upload_payload. rewrite or_empty_default. reflexivity.
  - split; [discriminate |].
    split; [apply lookup_insert_eq |].
    split; [| split; [apply documents_of_after_upload | reflexivity]].
    unfold create_document, file_written. cbn. rewrite Hstore. reflexivity.
Qed.

Lemma upload_video_persisted_item_witness :
  exists resp w',
    upload_video "Speech" None (Sample.clip "speech.webm") Sample.fresh = (Ok resp, w') /\
    UploadResponse.item resp
    = {[ "title" := VStr "Speech";
         "url" := VStr "/uploads/videos/0123456789abcdef0123456789abcde0.webm";
         "description" := VStr "";
         "thumbnail" := VNone ]} /\
    upload_dir w' !! "0123456789abcdef0123456789abcde0.webm"
    = Some (file_bytes (Sample.clip "speech.webm")) /\
    documents_of w' "videoitem" = [UploadResponse.item resp] /\
    UploadResponse.id resp = 0%nat.
Proof.
  eexists _, _. split; [reflexivity |].
  destruct (upload_video_persisted_item "Speech" None
              (Sample.clip "speech.webm") Sample.fresh _ _ eq_refl)
    as (Hitem & _ & Hfile & Hid & Hdocs & _).
  split; [exact Hitem |]. split; [exact Hfile |]. split; [exact Hdocs |].
  reflexivity.
Defined.

(** The same with a description, with an empty one, and with a name in
    capitals. *)
Example upload_video_persisted_descriptions :
  List.map
    (fun description =>
       match fst (upload_video "Speech" description (Sample.clip "a.MP4") Sample.fresh) with
       | Ok resp => UploadResponse.item resp !! "description"
       | Raise _ => None
       end)
    [None; Some ""; Some "In the square"]
  = [Some (VStr ""); Some (VStr ""); Some (VStr "In the square")].
Proof. reflexivity. Qed.

(** ** Upload: failures *)

Lemma upload_video_disk_failure title description file w msg :
  let ext := PyStr.lower (PurePosixPath.suffix (filename file)) in
  ext ∈ ALLOWED_SUFFIXES ->
  disk w = OpenFails msg \/ disk w = WriteFails msg ->
  fst (upload_video title description file w) = Raise (HTTPException 500 msg) /\
  collections (snd (upload_video title description file w)) = collections w.
Proof.
  intros ext Hext Hdisk.
  rewrite upload_video_checked by exact Hext.
  unfold try_except, bind, uuid4, write_file; cbn.
  destruct Hdisk as [-> | ->]; cbn; split; reflexivity.
Qed.

Lemma upload_video_store_failure title description file w msg :
  let ext := PyStr.lower (PurePosixPath.suffix (filename file)) in
  let hex := uuid4_hex w (uuid4_calls w) in
  ext ∈ ALLOWED_SUFFIXES -> disk w = DiskOk -> store_fault w = Some msg ->
  fst (upload_video title description file w) = Raise (HTTPException 500 msg) /\
  upload_dir (snd (upload_video title description file w))
  = <[hex ++ ext := file_bytes file]> (upload_dir w) /\
  collections (snd (upload_video title description file w)) = collections w.
Proof.
  intros ext hex Hext Hdisk Hstore.
  rewrite upload_video_checked by exact Hext.
  unfold try_except, bind, uuid4, write_file, create_document; cbn.
  rewrite Hdisk; cbn. rewrite Hstore; cbn.
  repeat split; reflexivity.
Qed.

(** C8. In the upload, the 400 of the format check goes through the
    exception clauses unchanged, as does any other [HTTPException]; every
    other exception becomes a 500 whose detail is the text of the exception.
    So a failing disk and a failing store both give a 500 with the
    underlying message, and when the store fails after the file was written
    the file is still in the upload directory. *)
Theorem upload_video_failure_semantics title description file w :
  let ext := PyStr.lower (PurePosixPath.suffix (filename file)) in
  let hex := uuid4_hex w (uuid4_calls w) in
  let run := upload_video title description file w in
  (forall status_code detail (w0 : World),
     @reraise_http_or_server_error UploadResponse.t (HTTPException status_code detail) w0
     = (Raise (HTTPException status_code detail), w0)) /\
  (ext ∉ ALLOWED_SUFFIXES ->
   fst run = Raise (HTTPException 400 UNSUPPORTED_DETAIL)) /\
  (forall msg,
     ext ∈ ALLOWED_SUFFIXES -> disk w = OpenFails msg \/ disk w = WriteFails msg ->
     fst run = Raise (HTTPException 500 msg)) /\
  (forall msg,
     ext ∈ ALLOWED_SUFFIXES -> disk w = DiskOk -> store_fault w = Some msg ->
     fst run = Raise (HTTPException 500 msg) /\
     upload_dir (snd run) !! (hex ++ ext) = Some (file_bytes file) /\
     documents_of (snd run) "videoitem" = documents_of w "videoitem") /\
  (forall e,
     fst run = Raise e ->
     e = HTTPException 400 UNSUPPORTED_DETAIL \/ exists msg, e = HTTPException 500 msg).
Proof.
  intros ext hex run. subst run.
  split; [reflexivity |].
  split; [intros Hext; now rewrite upload_video_rejected |].
  split; [intros msg Hext Hdisk; now apply upload_video_disk_failure |].
  split.
  - intros msg Hext Hdisk Hstore.
    destruct (upload_video_store_failure title description file w msg Hext Hdisk Hstore)
      as (Hres & Hdir & Hcoll).
    split; [exact Hres |]. split.
    + rewrite Hdir. apply lookup_insert_eq.
    + unfold documents_of. now rewrite Hcoll.
  - intros e He.
    destruct (decide (ext ∈ ALLOWED_SUFFIXES)) as [Hext | Hext].
    + right.
      destruct (disk w) as [| msg | msg] eqn:Hdisk.
      * destruct (store_fault w) as [msg |] eqn:Hstore.
        -- destruct (upload_video_store_failure title description file w msg Hext Hdisk Hstore)
             as (Hres & _).
           rewrite Hres in He. injection He as <-. now exists msg.
        -- rewrite (upload_video_accepted _ _ _ _ Hext Hdisk Hstore) in He. discriminate He.
      * destruct (upload_video_disk_failure title description file w msg Hext (or_introl Hdisk))
          as (Hres & _).
        rewrite Hres in He. injection He as <-. now exists msg.
      * destruct (upload_video_disk_failure title description file w msg Hext (or_intror Hdisk))
          as (Hres & _).
        rewrite Hres in He. injection He as <-. now exists msg.
    + left. rewrite upload_video_rejected in He by exact Hext. now injection He as <-.
Qed.

Lemma upload_video_failure_semantics_witness :
  let w := Sample.with_store_fault "connection refused" Sample.fresh in
  let run := upload_video "Speech" None (Sample.clip "speech.mov") w in
  fst run = Raise (HTTPException 500 "connection refused") /\
  upload_dir (snd run) !! "0123456789abcdef0123456789abcde0.mov"
  = Some (file_bytes (Sample.clip "speech.mov")) /\
  documents_of (snd run) "videoitem" = [] /\
  fst (upload_video "Speech" None (Sample.clip "speech.mov")
         (Sample.with_disk (OpenFails "No space left on device") Sample.fresh))
  = Raise (HTTPException 500 "No space left on device") /\
  fst (upload_video "Speech" None (Sample.clip "speech.txt") Sample.fresh)
  = Raise (HTTPException 400 UNSUPPORTED_DETAIL).
Proof.
  intros w run.
  assert (Hin : ".mov" ∈ ALLOWED_SUFFIXES) by (apply (bool_decide_unpack _); reflexivity).
  assert (Hout : ".txt" ∉ ALLOWED_SUFFIXES) by (apply (bool_decide_unpack _); reflexivity).
  pose proof (upload_video_failure_semantics "Speech" None (Sample.clip "speech.mov") w)
    as (_ & _ & _ & Hstore & _).
  pose proof (upload_video_failure_semantics "Speech" None (Sample.clip "speech.mov")
                (Sample.with_disk (OpenFails "No space left on device") Sample.fresh))
    as (_ & _ & Hdisk & _).
  pose proof (upload_video_failure_semantics "Speech" None (Sample.clip "speech.txt")
                Sample.fresh) as (_ & Hfmt & _).
  destruct (Hstore "connection refused" Hin eq_refl eq_refl) as (H1 & H2 & H3).
  split; [exact H1 |]. split; [exact H2 |]. split; [exact H3 |].
  split; [apply (Hdisk "No space left on device" Hin); left; reflexivity |].
  apply Hfmt. exact Hout.
Defined.

(** ** The diagnostic endpoint *)

(** C9. Whatever the database handle and the environment are (handle
    missing, attribute access raising, listing the collections raising or
    answering), [test_database] returns a response, which the framework
    sends with status 200; it raises nothing and leaves the world as it was.
    A failure of the probe is reported in the [database] entry of the
    response. *)
Theorem test_database_always_responds w :
  exists r,
    test_database w = (Ok r, w) /\
    http_status (fst (test_database w)) = 200 /\
    TestResponse.database r = database_report (db w) /\
    TestResponse.backend r = "✅ Running".
Proof.
  unfold test_database, database_report.
  destruct (db w) as [[name listing] |]; [| eexists; repeat split].
  destruct name as [v | | e], listing as [names | e']; eexists; repeat split.
Qed.

(** C10. When the database reports the list [names] of its collections,
    the [collections] entry of the response holds the first ten of them, and
    so never more than ten; it is empty when the probe stopped before the
    listing. *)
Theorem test_database_collections_first_ten w d names :
  db w = Some d ->
  db_list_collection_names d = Ok names ->
  exists r,
    fst (test_database w) = Ok r /\
    (List.length (TestResponse.collections r) <= 10)%nat /\
    (exists k, (k <= 10)%nat /\ TestResponse.collections r = firstn k names) /\
    ((forall e, db_name d <> AttrRaises e) ->
     TestResponse.collections r = firstn 10 names).
Proof.
  intros Hdb Hnames. unfold test_database. rewrite Hdb.
  destruct d as [name listing]. cbn in Hnames. subst listing.
  destruct name as [v | | e]; eexists; (split; [reflexivity |]); cbn.
  - split; [rewrite length_firstn; lia |].
    split; [exists 10%nat; split; [lia | reflexivity] | reflexivity].
  - split; [rewrite length_firstn; lia |].
    split; [exists 10%nat; split; [lia | reflexivity] | reflexivity].
  - split; [lia |].
    split; [exists 0%nat; split; [lia | reflexivity] |].
    intros Hno. now destruct (Hno e).
Qed.

Lemma test_database_collections_first_ten_witness :
  let names := ["c01"; "c02"; "c03"; "c04"; "c05"; "c06"; "c07"; "c08"; "c09"; "c10";
                "c11"; "c12"] in
  let w := Sample.with_db (Some (mkDbHandle (AttrValue "site") (Ok names))) Sample.fresh in
  exists r,
    fst (test_database w) = Ok r /\
    TestResponse.collections r
    = ["c01"; "c02"; "c03"; "c04"; "c05"; "c06"; "c07"; "c08"; "c09"; "c10"].
Proof.
  intros names w.
  destruct (test_database_collections_first_ten w _ names eq_refl eq_refl)
    as (r & Hr & _ & _ & Hten).
  exists r. split; [exact Hr |].
  rewrite Hten; [reflexivity | discriminate].
Defined.

(** ** Listing the chat *)

Lemma matches_empty (doc : Document) : matches ∅ doc = true.
Proof. apply bool_decide_eq_true_2, map_Forall_empty. Qed.

Lemma filter_matches_empty (docs : list Document) : List.filter (matches ∅) docs = docs.
Proof.
  induction docs as [| d docs IH]; [reflexivity |].
  cbn [List.filter]. now rewrite matches_empty, IH.
Qed.

Lemma get_documents_unfiltered collection_name limit w :
  store_fault w = None ->
  get_documents collection_name ∅ limit w
  = (Ok (firstn (Z.to_nat limit) (documents_of w collection_name)), w).
Proof. intros H. unfold get_documents. now rewrite H, filter_matches_empty. Qed.

Lemma get_documents_faulty collection_name filter limit w msg :
  store_fault w = Some msg ->
  get_documents collection_name filter limit w = (Raise (Exception msg), w).
Proof. intros H. unfold get_documents. now rewrite H. Qed.

(** The chat listing, for a store that answers: one record for each one
    fetched, in the same order, with the two defaults. *)
Lemma get_chat_messages_records limit w :
  store_fault w = None ->
  get_chat_messages limit w
  = (Ok (List.map
           (fun d : Document =>
              ({[ "name" := dict_get_default d "name" (VStr "Anonym");
                  "content" := dict_get_default d "content" (VStr "") ]} : Document))
           (firstn (Z.to_nat (default 30 limit)) (documents_of w "chatmessage"))), w).
Proof.
  intros Hstore. unfold get_chat_messages, try_except, bind.
  now rewrite (get_documents_unfiltered _ _ _ Hstore).
Qed.

(** C7, on the code.  The handler puts "Anonym" for a missing name and the
    empty string for a missing content, but the route declares
    [response_model=List[ChatMessage]] and [ChatMessage] asks for a content
    of one character at least: with a stored record that has no content the
    chat listing answers 500 and returns no record at all.  The placeholder
    for the name does come out, and a limit that stops before the record
    without content gives the records before it. *)
Theorem get_chat_messages_empty_content_refused :
  let stored : list Document :=
    [ {[ "name" := VStr "Eva"; "content" := VStr "Dobry den" ]};
      {[ "content" := VStr "bez mena" ]};
      {[ "name" := VStr "Jan" ]} ] in
  let w := Sample.with_collection "chatmessage" stored Sample.fresh in
  fst (get_chat_messages None w)
  = Ok [ {[ "name" := VStr "Eva"; "content" := VStr "Dobry den" ]};
         {[ "name" := VStr "Anonym"; "content" := VStr "bez mena" ]};
         {[ "name" := VStr "Jan"; "content" := VStr "" ]} ] /\
  fst (route_get_chat_messages None w)
  = Raise (ResponseValidationError [("content", TooShort 1)]) /\
  http_status (fst (route_get_chat_messages None w)) = 500 /\
  fst (route_get_chat_messages (Some 2) w)
  = Ok [ChatMessage.mk "Eva" "Dobry den"; ChatMessage.mk "Anonym" "bez mena"].
Proof. repeat split; vm_compute; reflexivity. Qed.

(** Behind the response model of the route a record without content does
    not come out as the empty string: the model asks for one character at
    least and the response is a 500. *)
Lemma route_get_chat_messages_missing_content :
  let w := Sample.with_collection "chatmessage" [ {[ "name" := VStr "Jan" ]} ] Sample.fresh in
  fst (route_get_chat_messages None w)
  = Raise (ResponseValidationError [("content", TooShort 1)]) /\
  http_status (fst (route_get_chat_messages None w)) = 500.
Proof. split; reflexivity. Qed.

(** ** Listing the videos *)

Lemma required_str_inr min_length max_length o s :
  Field.required_str min_length max_length o = inr s ->
  o = Some (VStr s) /\ Field.check_length min_length max_length s = None.
Proof.
  destruct o as [[| s' | dt] |]; cbn; try discriminate.
  destruct (Field.check_length min_length max_length s') eqn:Hlen; [discriminate |].
  intros [= <-]. split; [reflexivity | exact Hlen].
Qed.

Lemma required_str_checked min_length max_length s :
  Field.check_length min_length max_length s = None ->
  Field.required_str min_length max_length (Some (VStr s)) = inr s.
Proof. intros H. cbn. now rewrite H. Qed.

Lemma check_length_min a max_length s :
  Field.check_length (Some a) max_length s = None -> (a <= PyStr.len s)%nat.
Proof.
  unfold Field.check_length.
  destruct (Nat.ltb (PyStr.len s) a) eqn:Hlt; [discriminate |].
  intros _. now apply Nat.ltb_ge in Hlt.
Qed.

Lemma check_length_max min_length b s :
  Field.check_length min_length (Some b) s = None -> (PyStr.len s <= b)%nat.
Proof.
  unfold Field.check_length.
  destruct min_length as [a |].
  - destruct (Nat.ltb (PyStr.len s) a); [discriminate |].
    destruct (Nat.ltb b (PyStr.len s)) eqn:Hlt; [discriminate |].
    intros _. now apply Nat.ltb_ge in Hlt.
  - destruct (Nat.ltb b (PyStr.len s)) eqn:Hlt; [discriminate |].
    intros _. now apply Nat.ltb_ge in Hlt.
Qed.

Lemma for_each_cons_pure {S A B} (g : A -> M S B) (f : A -> Result B) x xs (s : S) :
  (forall x s0, g x s0 = (f x, s0)) ->
  for_each g (x :: xs) s
  = match f x with
    | Ok y =>
        match for_each g xs s with
        | (Ok ys, s') => (Ok (y :: ys), s')
        | (Raise e, s') => (Raise e, s')
        end
    | Raise e => (Raise e, s)
    end.
Proof.
  intros Hg. cbn [for_each]. unfold bind. rewrite Hg.
  destruct (f x); [| reflexivity].
  destruct (for_each g xs s) as [[ys | e] s']; reflexivity.
Qed.

Lemma for_each_pure {S A B} (g : A -> M S B) (f : A -> Result B) (xs : list A) (s : S) :
  (forall x s0, g x s0 = (f x, s0)) ->
  (exists ys, for_each g xs s = (Ok ys, s) /\ Forall2 (fun x y => f x = Ok y) xs ys) \/
  (exists x e, x ∈ xs /\ f x = Raise e /\ for_each g xs s = (Raise e, s)).
Proof.
  intros Hg. induction xs as [| x xs IH].
  - left. exists []. split; [reflexivity | constructor].
  - rewrite !(for_each_cons_pure g f x xs s Hg).
    destruct (f x) as [y | e] eqn:Hx.
    + destruct IH as [(ys & Hrun & Hall) | (x' & e & Hin & Hx' & Hrun)]; rewrite Hrun.
      * left. exists (y :: ys). split; [reflexivity | now constructor].
      * right. exists x', e.
        split; [now apply list_elem_of_further | split; [exact Hx' | reflexivity]].
    + right. exists x, e.
      split; [apply list_elem_of_here | split; [exact Hx | reflexivity]].
Qed.

Lemma video_item_kwargs_title d :
  video_item_kwargs d !! "title" = Some (dict_get_default d "title" (VStr "")).
Proof. reflexivity. Qed.
Lemma video_item_kwargs_url d :
  video_item_kwargs d !! "url" = Some (dict_get_default d "url" (VStr "")).
Proof. reflexivity. Qed.
Lemma video_item_kwargs_thumbnail d :
  video_item_kwargs d !! "thumbnail" = Some (dict_get d "thumbnail").
Proof. reflexivity. Qed.
Lemma video_item_kwargs_description d :
  video_item_kwargs d !! "description" = Some (dict_get d "description").
Proof. reflexivity. Qed.
Lemma video_item_kwargs_created_at d :
  video_item_kwargs d !! "created_at" = Some (created_iso (dict_get d "created_at")).
Proof. reflexivity. Qed.

(** The item built from a stored record, when one is built. *)
Lemma video_item_of_document d item :
  VideoItem.validate (video_item_kwargs d) = Ok item ->
  Field.required_str (Some 2%nat) (Some 140%nat) (Some (dict_get_default d "title" (VStr "")))
  = inr (VideoItem.title item) /\
  Field.required_str None None (Some (dict_get_default d "url" (VStr "")))
  = inr (VideoItem.url item) /\
  Field.optional_str None (Some (created_iso (dict_get d "created_at")))
  = inr (VideoItem.created_at item).
Proof.
  unfold VideoItem.validate.
  rewrite video_item_kwargs_title, video_item_kwargs_url, video_item_kwargs_thumbnail,
    video_item_kwargs_description, video_item_kwargs_created_at.
  destruct (Field.required_str (Some 2%nat) _ _) as [? | ti]; [discriminate |].
  destruct (Field.required_str None _ _) as [? | u]; [discriminate |].
  destruct (Field.optional_str None (Some (dict_get d "thumbnail"))) as [? | th];
    [discriminate |].
  destruct (Field.optional_str (Some 500%nat) _) as [? | de]; [discriminate |].
  destruct (Field.optional_str None _) as [? | cr]; [discriminate |].
  intros [= <-]. repeat split.
Qed.

Lemma list_videos_ok_inv limit w items :
  fst (list_videos limit w) = Ok items ->
  exists docs,
    fst (get_documents "videoitem" ∅ (default 50 limit) w) = Ok docs /\
    Forall2 (fun d item => VideoItem.validate (video_item_kwargs d) = Ok item) docs items.
Proof.
  unfold list_videos, try_except, bind.
  destruct (store_fault w) as [msg |] eqn:Hstore.
  - rewrite (get_documents_faulty _ _ _ _ _ Hstore). cbn. discriminate.
  - rewrite (get_documents_unfiltered _ _ _ Hstore). cbn.
    destruct (for_each_pure
                (fun d => lift_result (VideoItem.validate (video_item_kwargs d)))
                (fun d => VideoItem.validate (video_item_kwargs d))
                (firstn (Z.to_nat (default 50 limit)) (documents_of w "videoitem")) w
                (fun _ _ => eq_refl))
      as [(ys & Hrun & Hall) | (x & e & _ & _ & Hrun)]; rewrite Hrun; cbn.
    + intros [= <-]. eexists. split; [reflexivity | exact Hall].
    + discriminate.
Qed.

Lemma created_at_of_listed_item d item :
  VideoItem.validate (video_item_kwargs d) = Ok item ->
  VideoItem.created_at item = created_at_listed (d !! "created_at").
Proof.
  intros H. apply video_item_of_document in H as (_ & _ & H).
  unfold dict_get in H.
  destruct (d !! "created_at") as [[| s | dt] |]; cbn in H |- *.
  - now injection H as <-.
  - destruct (String.eqb s ""); cbn in H; now injection H as <-.
  - now injection H as <-.
  - now injection H as <-.
Qed.

(** C6, as amended.  For every record the video listing returns, the
    [created_at] of the item is the ISO-8601 text of the stored value when
    that is a datetime, the stored string unchanged when that is a string
    that is not empty, and null when the field is absent, null or the empty
    string. *)
Theorem list_videos_created_at limit w items :
  fst (list_videos limit w) = Ok items ->
  exists docs,
    fst (get_documents "videoitem" ∅ (default 50 limit) w) = Ok docs /\
    Forall2 (fun (d : Document) item =>
               VideoItem.created_at item = created_at_listed (d !! "created_at"))
            docs items.
Proof.
  intros H. apply list_videos_ok_inv in H as (docs & Hdocs & Hall).
  exists docs. split; [exact Hdocs |].
  eapply Forall2_impl; [exact Hall |].
  intros d item Hitem. now apply created_at_of_listed_item.
Qed.

Lemma list_videos_created_at_witness :
  let stored := [SampleVideos.with_datetime; SampleVideos.with_string;
                 SampleVideos.without_created_at; SampleVideos.with_empty_string] in
  exists items,
    fst (list_videos None (SampleVideos.store stored)) = Ok items /\
    Forall2 (fun (d : Document) item =>
               VideoItem.created_at item = created_at_listed (d !! "created_at"))
            stored items /\
    List.map (fun d : Document => created_at_listed (d !! "created_at")) stored
    = [Some "2024-03-07T09:05:00"; Some "2024-03-08T10:00:00"; None; None].
Proof.
  intros stored. eexists. split; [reflexivity |].
  destruct (list_videos_created_at None (SampleVideos.store stored) _ eq_refl)
    as (docs & Hdocs & Hall).
  injection Hdocs as <-.
  split; [exact Hall | reflexivity].
Defined.

(** C6 as first stated fails: a stored [created_at] that is the empty
    string is listed as null, not passed through. *)
Lemma list_videos_created_at_counterexample :
  ~ (forall limit w items docs,
       fst (list_videos limit w) = Ok items ->
       fst (get_documents "videoitem" ∅ (default 50 limit) w) = Ok docs ->
       Forall2 (fun (d : Document) item =>
                  VideoItem.created_at item = created_at_specified (d !! "created_at"))
               docs items).
Proof.
  intros H.
  specialize (H None (SampleVideos.store [SampleVideos.with_empty_string]) _ _ eq_refl eq_refl).
  apply Forall2_cons_1 in H as [H _].
  vm_compute in H. discriminate H.
Qed.

(** ** Listing a record without a title *)

Lemma list_videos_validation_failure limit w docs d e :
  fst (get_documents "videoitem" ∅ (default 50 limit) w) = Ok docs ->
  d ∈ docs ->
  VideoItem.validate (video_item_kwargs d) = Raise e ->
  exists detail, fst (list_videos limit w) = Raise (HTTPException 500 detail).
Proof.
  intros Hdocs Hin Hd.
  unfold list_videos, try_except, bind.
  destruct (store_fault w) as [msg |] eqn:Hstore.
  - rewrite (get_documents_faulty _ _ _ _ _ Hstore) in *. discriminate Hdocs.
  - rewrite (get_documents_unfiltered _ _ _ Hstore) in *. cbn in Hdocs. injection Hdocs as <-.
    cbn.
    destruct (for_each_pure
                (fun d => lift_result (VideoItem.validate (video_item_kwargs d)))
                (fun d => VideoItem.validate (video_item_kwargs d))
                (firstn (Z.to_nat (default 50 limit)) (documents_of w "videoitem")) w
                (fun _ _ => eq_refl))
      as [(ys & Hrun & Hall) | (x & e' & _ & _ & Hrun)]; rewrite Hrun; cbn.
    + apply list_elem_of_lookup in Hin as [i Hi].
      destruct (Forall2_lookup_l _ _ _ _ _ Hall Hi) as (y & _ & Hy).
      rewrite Hd in Hy. discriminate Hy.
    + eexists. reflexivity.
Qed.

Lemma validate_missing_title (d : Document) :
  d !! "title" = None ->
  exists errors, VideoItem.validate (video_item_kwargs d) = Raise (ValidationError "VideoItem" errors).
Proof.
  intros Hd. unfold VideoItem.validate.
  rewrite video_item_kwargs_title. unfold dict_get_default. rewrite Hd. cbn.
  eexists. reflexivity.
Qed.

(** A listing that meets a stored record without a title fails as a whole. *)
Lemma list_videos_missing_title limit w docs d :
  fst (get_documents "videoitem" ∅ (default 50 limit) w) = Ok docs ->
  d ∈ docs ->
  d !! "title" = None ->
  exists detail, fst (list_videos limit w) = Raise (HTTPException 500 detail).
Proof.
  intros Hdocs Hin Hd.
  destruct (validate_missing_title d Hd) as (errors & He).
  eapply list_videos_validation_failure; eassumption.
Qed.

(** In a listing that succeeds, every record had a title of at least two
    characters, which is listed as it is; a missing url is listed as the
    empty string. *)
Lemma list_videos_title_and_url limit w items :
  fst (list_videos limit w) = Ok items ->
  exists docs,
    fst (get_documents "videoitem" ∅ (default 50 limit) w) = Ok docs /\
    Forall2 (fun (d : Document) item =>
               d !! "title" = Some (VStr (VideoItem.title item)) /\
               (2 <= PyStr.len (VideoItem.title item))%nat /\
               dict_get_default d "url" (VStr "") = VStr (VideoItem.url item))
            docs items.
Proof.
  intros H. apply list_videos_ok_inv in H as (docs & Hdocs & Hall).
  exists docs. split; [exact Hdocs |].
  eapply Forall2_impl; [exact Hall |].
  intros d item Hitem. apply video_item_of_document in Hitem as (Hti & Hu & _).
  apply required_str_inr in Hti as (Hti & Hlen).
  apply required_str_inr in Hu as (Hu & _).
  apply check_length_min in Hlen.
  unfold dict_get_default in *.
  split; [| split; [exact Hlen |]].
  - destruct (d !! "title") as [v |] eqn:Hd; cbn in Hti.
    + exact Hti.
    + injection Hti as Hti. rewrite <- Hti in Hlen. cbn in Hlen. lia.
  - now injection Hu.
Qed.

(** C5, on the code.  A stored video without a title makes the whole
    listing fail with status 500: the empty string that stands in for the
    title is refused by the model, whose title has at least two characters.
    A stored video without a url is listed with the empty string. *)
Theorem list_videos_missing_title_fails :
  SampleVideos.without_title !! "title" = None /\
  fst (list_videos None (SampleVideos.store [SampleVideos.without_title]))
  = Raise (HTTPException 500
             "validation error for VideoItem: title: ensure this value has at least 2 characters") /\
  http_status (fst (list_videos None
                      (SampleVideos.store [SampleVideos.with_string;
                                           SampleVideos.without_title]))) = 500 /\
  List.map VideoItem.url
    (match fst (list_videos None (SampleVideos.store [SampleVideos.without_url])) with
     | Ok items => items
     | Raise _ => []
     end) = [""].
Proof. repeat split; vm_compute; reflexivity. Qed.

(** ** What reaches the store *)

Lemma documents_of_stored collection_name doc w c :
  documents_of (stored collection_name doc w) c
  = if decide (collection_name = c)
    then (documents_of w c ++ [doc])%list
    else documents_of w c.
Proof.
  unfold documents_of at 1. cbn. rewrite lookup_insert.
  destruct (decide (collection_name = c)) as [-> | Hne]; reflexivity.
Qed.

Lemma post_contact_store_model msg :
  post_contact msg = store_model "contactmessage" (OfContactMessage msg).
Proof. reflexivity. Qed.
Lemma post_chat_message_store_model msg :
  post_chat_message msg = store_model "chatmessage" (OfChatMessage msg).
Proof. reflexivity. Qed.
Lemma create_video_store_model item :
  create_video item = store_model "videoitem" (OfVideoItem item).
Proof. reflexivity. Qed.

Lemma store_model_world collection_name data w :
  snd (store_model collection_name data w) = w \/
  snd (store_model collection_name data w) = stored collection_name (to_document data) w.
Proof.
  unfold store_model, try_except, bind, create_document.
  destruct (store_fault w); [left | right]; reflexivity.
Qed.

Lemma with_body_world {A B} (validate : Document -> Result A) (handler : A -> M World B)
    body w :
  snd (with_body validate handler body w) = w \/
  exists a, validate body = Ok a /\
            snd (with_body validate handler body w) = snd (handler a w).
Proof.
  unfold with_body. destruct (validate body) as [a | e].
  - right. exists a. split; reflexivity.
  - left. destruct e; reflexivity.
Qed.

Lemma optional_str_dump max_length o r :
  Field.optional_str max_length o = inr r ->
  Field.optional_str max_length (Some (Field.dump_optional r)) = inr r.
Proof.
  destruct o as [[| s | dt] |]; cbn; try discriminate.
  - now intros [= <-].
  - destruct (Field.check_length None max_length s) eqn:Hlen; [discriminate |].
    intros [= <-]. cbn. now rewrite Hlen.
  - now intros [= <-].
Qed.

Lemma ChatMessage_dump_valid body msg :
  ChatMessage.validate body = Ok msg ->
  ChatMessage.valid (ChatMessage.model_dump msg) = true.
Proof.
  unfold ChatMessage.valid, ChatMessage.validate at 1.
  destruct (Field.required_str _ _ (body !! "name")) as [? | n] eqn:Hn; [discriminate |].
  destruct (Field.required_str _ _ (body !! "content")) as [? | c] eqn:Hc; [discriminate |].
  intros [= <-].
  apply required_str_inr in Hn as (_ & Hn), Hc as (_ & Hc).
  unfold ChatMessage.validate.
  change (ChatMessage.model_dump (ChatMessage.mk n c) !! "name") with (Some (VStr n)).
  change (ChatMessage.model_dump (ChatMessage.mk n c) !! "content") with (Some (VStr c)).
  now rewrite !required_str_checked.
Qed.

Lemma VideoItem_dump_valid body item :
  VideoItem.validate body = Ok item ->
  VideoItem.valid (VideoItem.model_dump item) = true.
Proof.
  unfold VideoItem.valid, VideoItem.validate at 1.
  destruct (Field.required_str _ _ (body !! "title")) as [? | ti] eqn:Hti; [discriminate |].
  destruct (Field.required_str _ _ (body !! "url")) as [? | u] eqn:Hu; [discriminate |].
  destruct (Field.optional_str _ (body !! "thumbnail")) as [? | th] eqn:Hth; [discriminate |].
  destruct (Field.optional_str _ (body !! "description")) as [? | de] eqn:Hde; [discriminate |].
  destruct (Field.optional_str _ (body !! "created_at")) as [? | cr] eqn:Hcr; [discriminate |].
  intros [= <-].
  apply required_str_inr in Hti as (_ & Hti), Hu as (_ & Hu).
  apply optional_str_dump in Hth, Hde, Hcr.
  unfold VideoItem.validate.
  change (VideoItem.model_dump (VideoItem.mk ti u th de cr) !! "title") with (Some (VStr ti)).
  change (VideoItem.model_dump (VideoItem.mk ti u th de cr) !! "url") with (Some (VStr u)).
  change (VideoItem.model_dump (VideoItem.mk ti u th de cr) !! "thumbnail")
    with (Some (Field.dump_optional th)).
  change (VideoItem.model_dump (VideoItem.mk ti u th de cr) !! "description")
    with (Some (Field.dump_optional de)).
  change (VideoItem.model_dump (VideoItem.mk ti u th de cr) !! "created_at")
    with (Some (Field.dump_optional cr)).
  now rewrite !required_str_checked, Hth, Hde, Hcr.
Qed.

Section StoreValid.

Variable validate_email : string -> option string.

(** The address validator accepts the addresses it returns. *)
Hypothesis validate_email_normal :
  forall s s', validate_email s = Some s' -> validate_email s' = Some s'.

Lemma ContactMessage_dump_valid body msg :
  ContactMessage.validate validate_email body = Ok msg ->
  ContactMessage.valid validate_email (ContactMessage.model_dump msg) = true.
Proof.
  unfold ContactMessage.valid, ContactMessage.validate at 1.
  destruct (Field.required_str _ _ (body !! "name")) as [? | n] eqn:Hn; [discriminate |].
  destruct (ContactMessage.email_field _ (body !! "email")) as [? | e] eqn:He;
    [discriminate |].
  destruct (Field.required_str _ _ (body !! "message")) as [? | m] eqn:Hm; [discriminate |].
  intros [= <-].
  apply required_str_inr in Hn as (_ & Hn), Hm as (_ & Hm).
  assert (He' : ContactMessage.email_field validate_email (Some (VStr e)) = inr e).
  { unfold ContactMessage.email_field in *.
    destruct (body !! "email") as [[| s | dt] |]; try discriminate He.
    destruct (validate_email s) as [s' |] eqn:Hs; [| discriminate He].
    injection He as <-. now rewrite (validate_email_normal _ _ Hs). }
  unfold ContactMessage.validate.
  change (ContactMessage.model_dump (ContactMessage.mk n e m) !! "name")
    with (Some (VStr n)).
  change (ContactMessage.model_dump (ContactMessage.mk n e m) !! "email")
    with (Some (VStr e)).
  change (ContactMessage.model_dump (ContactMessage.mk n e m) !! "message")
    with (Some (VStr m)).
  now rewrite !required_str_checked, He'.
Qed.

Lemma stored_keeps_valid collection_name doc w :
  store_valid validate_email w ->
  (collection_name = "contactmessage" -> ContactMessage.valid validate_email doc = true) ->
  (collection_name = "chatmessage" -> ChatMessage.valid doc = true) ->
  (collection_name = "videoitem" -> VideoItem.valid doc = true) ->
  store_valid validate_email (stored collection_name doc w).
Proof.
  intros (Hcontact & Hchat & Hvideo) H1 H2 H3.
  unfold store_valid. rewrite !documents_of_stored.
  repeat split; case_decide; try assumption; apply Forall_app; split; try assumption;
    repeat constructor; auto.
Qed.

(** The three routes that take a model keep the store valid: what they
    hand to the store went through the model's validation. *)
Lemma route_post_contact_keeps_valid body w :
  store_valid validate_email w ->
  store_valid validate_email (snd (route_post_contact validate_email body w)).
Proof.
  intros Hw. unfold route_post_contact.
  destruct (with_body_world (ContactMessage.validate validate_email) post_contact body w)
    as [-> | (msg & Hmsg & ->)]; [exact Hw |].
  rewrite post_contact_store_model.
  destruct (store_model_world "contactmessage" (OfContactMessage msg) w) as [-> | ->];
    [exact Hw |].
  apply stored_keeps_valid; try discriminate; [exact Hw |].
  intros _. now apply (ContactMessage_dump_valid body).
Qed.

Lemma route_post_chat_message_keeps_valid body w :
  store_valid validate_email w ->
  store_valid validate_email (snd (route_post_chat_message body w)).
Proof.
  intros Hw. unfold route_post_chat_message.
  destruct (with_body_world ChatMessage.validate post_chat_message body w)
    as [-> | (msg & Hmsg & ->)]; [exact Hw |].
  rewrite post_chat_message_store_model.
  destruct (store_model_world "chatmessage" (OfChatMessage msg) w) as [-> | ->];
    [exact Hw |].
  apply stored_keeps_valid; try discriminate; [exact Hw |].
  intros _. now apply (ChatMessage_dump_valid body).
Qed.

Lemma route_create_video_keeps_valid body w :
  store_valid validate_email w ->
  store_valid validate_email (snd (route_create_video body w)).
Proof.
  intros Hw. unfold route_create_video.
  destruct (with_body_world VideoItem.validate create_video body w)
    as [-> | (item & Hitem & ->)]; [exact Hw |].
  rewrite create_video_store_model.
  destruct (store_model_world "videoitem" (OfVideoItem item) w) as [-> | ->];
    [exact Hw |].
  apply stored_keeps_valid; try discriminate; [exact Hw |].
  intros _. now apply (VideoItem_dump_valid body).
Qed.

End StoreValid.

(** C3, on the code.  The upload hands its record to the store without the
    checks of [VideoItem]: a title of one character is stored, although the
    model asks for two at least, the route that takes a [VideoItem] refuses
    the same record, and the listing fails on it afterwards. *)
Theorem upload_video_stores_unchecked_title :
  let run := upload_video "a" None (Sample.clip "clip.mp4") Sample.fresh in
  exists resp,
    fst run = Ok resp /\
    documents_of (snd run) "videoitem" = [UploadResponse.item resp] /\
    UploadResponse.item resp !! "title" = Some (VStr "a") /\
    VideoItem.validate (UploadResponse.item resp)
    = Raise (ValidationError "VideoItem" [("title", TooShort 2)]) /\
    (forall validate_email,
       store_valid validate_email Sample.fresh /\
       ~ store_valid validate_email (snd run)) /\
    route_create_video (UploadResponse.item resp) Sample.fresh
    = (Raise (RequestValidationError [("title", TooShort 2)]), Sample.fresh) /\
    http_status (fst (list_videos None (snd run))) = 500.
Proof.
  eexists. split; [reflexivity |].
  split; [reflexivity |]. split; [reflexivity |]. split; [reflexivity |].
  split; [| split; reflexivity].
  intros validate_email. split.
  - repeat split; constructor.
  - intros (_ & _ & Hvideo).
    apply Forall_cons_1 in Hvideo as [Hvalid _].
    vm_compute in Hvalid. discriminate Hvalid.
Qed.

(** * Further properties of the handlers and the models *)

(** ** The models of [schemas.py], field by field *)

Lemma check_length_range a b s :
  Field.check_length (Some a) (Some b) s = None <->
  (a <= PyStr.len s <= b)%nat.
Proof.
  unfold Field.check_length.
  destruct (Nat.ltb_spec (PyStr.len s) a) as [Hlo | Hlo].
  - split; [discriminate | lia].
  - destruct (Nat.ltb_spec b (PyStr.len s)) as [Hhi | Hhi].
    + split; [discriminate | lia].
    + split; [lia | reflexivity].
Qed.

Lemma check_length_upper b s :
  Field.check_length None (Some b) s = None <-> (PyStr.len s <= b)%nat.
Proof.
  unfold Field.check_length.
  destruct (Nat.ltb_spec b (PyStr.len s)) as [Hhi | Hhi].
  - split; [discriminate | lia].
  - split; [lia | reflexivity].
Qed.

Lemma required_str_iff min_length max_length o s :
  Field.required_str min_length max_length o = inr s <->
  o = Some (VStr s) /\ Field.check_length min_length max_length s = None.
Proof.
  split; [apply required_str_inr |].
  intros [-> H]. now apply required_str_checked.
Qed.

Lemma optional_str_iff max_length o r :
  Field.optional_str max_length o = inr r <->
  optional_is o r /\
  match r with
  | Some s => Field.check_length None max_length s = None
  | None => True
  end.
Proof.
  unfold optional_is. split.
  - destruct o as [[| s | dt] |]; cbn; try discriminate.
    + intros [= <-]. split; [now right | exact I].
    + destruct (Field.check_length None max_length s) eqn:Hlen; [discriminate |].
      intros [= <-]. split; [reflexivity | exact Hlen].
    + intros [= <-]. split; [now left | exact I].
  - destruct r as [s |].
    + intros [-> Hlen]. cbn. now rewrite Hlen.
    + intros [[-> | ->] _]; reflexivity.
Qed.

Lemma VideoItem_validate_spec (kw : Document) ti u th de cr :
  VideoItem.validate kw = Ok (VideoItem.mk ti u th de cr) <->
  kw !! "title" = Some (VStr ti) /\ (2 <= PyStr.len ti <= 140)%nat /\
  kw !! "url" = Some (VStr u) /\
  optional_is (kw !! "thumbnail") th /\
  optional_is (kw !! "description") de /\ at_most 500 de /\
  optional_is (kw !! "created_at") cr.
Proof.
  rewrite <- check_length_range. unfold VideoItem.validate. split.
  - destruct (Field.required_str _ _ (kw !! "title")) as [? | ti'] eqn:Hti; [discriminate |].
    destruct (Field.required_str _ _ (kw !! "url")) as [? | u'] eqn:Hu; [discriminate |].
    destruct (Field.optional_str _ (kw !! "thumbnail")) as [? | th'] eqn:Hth; [discriminate |].
    destruct (Field.optional_str _ (kw !! "description")) as [? | de'] eqn:Hde; [discriminate |].
    destruct (Field.optional_str _ (kw !! "created_at")) as [? | cr'] eqn:Hcr; [discriminate |].
    intros [= <- <- <- <- <-].
    apply required_str_iff in Hti as (Hti & Hti'), Hu as (Hu & _).
    apply optional_str_iff in Hth as (Hth & _), Hde as (Hde & Hde'), Hcr as (Hcr & _).
    repeat split; try assumption.
    destruct de' as [s |]; [now apply check_length_upper | exact I].
  - intros (Hti & Hti' & Hu & Hth & Hde & Hde' & Hcr).
    rewrite (proj2 (required_str_iff _ _ _ ti) (conj Hti Hti')).
    rewrite (proj2 (required_str_iff None None _ u) (conj Hu eq_refl)).
    rewrite (proj2 (optional_str_iff None _ th)).
    2:{ split; [exact Hth | now destruct th]. }
    rewrite (proj2 (optional_str_iff (Some 500%nat) _ de)).
    2:{ split; [exact Hde |]. destruct de as [s |]; [now apply check_length_upper | exact I]. }
    rewrite (proj2 (optional_str_iff None _ cr)).
    2:{ split; [exact Hcr | now destruct cr]. }
    reflexivity.
Qed.

(** ** The handlers that store a model *)

Lemma store_model_outcome collection_name data w :
  (store_fault w = None /\
   store_model collection_name data w
   = (Ok (PostResponse.mk "ok" (next_id w)), stored collection_name (to_document data) w)) \/
  (exists msg,
     store_fault w = Some msg /\
     store_model collection_name data w = (Raise (HTTPException 500 msg), w)).
Proof.
  unfold store_model, try_except, bind, create_document.
  destruct (store_fault w) as [msg |]; [right; exists msg | left]; split; reflexivity.
Qed.

(** X4. [post_contact], [post_chat_message] and [create_video] each make
    one call to [create_document], with their own collection
    ("contactmessage", "chatmessage", "videoitem") and the model they were
    given.  When the store returns an identifier, the response is status
    "ok" with that very identifier; when the store raises, the handler raises
    a 500 whose detail is the text of that exception.  In both cases the
    world is the one the store left: the handlers write nothing themselves. *)
Theorem post_handlers_outcome (contact : ContactMessage.t) (chat : ChatMessage.t)
    (video : VideoItem.t) w :
  through_store "contactmessage" (OfContactMessage contact) w (post_contact contact w) /\
  through_store "chatmessage" (OfChatMessage chat) w (post_chat_message chat w) /\
  through_store "videoitem" (OfVideoItem video) w (create_video video w).
Proof.
  assert (H : forall collection_name data,
             through_store collection_name data w (store_model collection_name data w)).
  { intros collection_name data. unfold through_store, store_model, try_except, bind.
    destruct (create_document collection_name data w) as [[id | e] w']; reflexivity. }
  rewrite post_contact_store_model, post_chat_message_store_model, create_video_store_model.
  repeat split; apply H.
Qed.

Lemma post_handlers_outcome_witness :
  post_chat_message (ChatMessage.mk "Eva" "Dobry den")
    (Sample.with_collection "chatmessage" [ {[ "name" := VStr "Jan" ]} ]
       (set_store ∅ 41 Sample.fresh))
  = (Ok (PostResponse.mk "ok" 41),
     snd (create_document "chatmessage" (OfChatMessage (ChatMessage.mk "Eva" "Dobry den"))
            (Sample.with_collection "chatmessage" [ {[ "name" := VStr "Jan" ]} ]
               (set_store ∅ 41 Sample.fresh)))) /\
  post_contact (ContactMessage.mk "Jan" "jan@example.org" "Dobry den")
    (Sample.with_store_fault "connection refused" Sample.fresh)
  = (Raise (HTTPException 500 "connection refused"),
     Sample.with_store_fault "connection refused" Sample.fresh).
Proof.
  pose proof (post_handlers_outcome (ContactMessage.mk "Jan" "jan@example.org" "Dobry den")
                (ChatMessage.mk "Eva" "Dobry den")
                (VideoItem.mk "Prejav" "https://example.org/a.mp4" None None None)
                (Sample.with_collection "chatmessage" [ {[ "name" := VStr "Jan" ]} ]
                   (set_store ∅ 41 Sample.fresh))) as (_ & Hchat & _).
  pose proof (post_handlers_outcome (ContactMessage.mk "Jan" "jan@example.org" "Dobry den")
                (ChatMessage.mk "Eva" "Dobry den")
                (VideoItem.mk "Prejav" "https://example.org/a.mp4" None None None)
                (Sample.with_store_fault "connection refused" Sample.fresh))
    as (Hcontact & _).
  split; [exact Hchat | exact Hcontact].
Defined.

(** ** The handlers that read the store *)

Lemma get_chat_messages_run limit w :
  get_chat_messages limit w
  = match store_fault w with
    | Some msg => (Raise (HTTPException 500 msg), w)
    | None =>
        (Ok (List.map
               (fun d : Document =>
                  ({[ "name" := dict_get_default d "name" (VStr "Anonym");
                      "content" := dict_get_default d "content" (VStr "") ]} : Document))
               (firstn (Z.to_nat (default 30 limit)) (documents_of w "chatmessage"))), w)
    end.
Proof.
  unfold get_chat_messages, try_except, bind.
  destruct (store_fault w) as [msg |] eqn:Hstore.
  - now rewrite (get_documents_faulty _ _ _ _ _ Hstore).
  - now rewrite (get_documents_unfiltered _ _ _ Hstore).
Qed.

Lemma list_videos_run limit w :
  let docs := firstn (Z.to_nat (default 50 limit)) (documents_of w "videoitem") in
  list_videos limit w
  = match store_fault w with
    | Some msg => (Raise (HTTPException 500 msg), w)
    | None =>
        match for_each (fun d => lift_result (VideoItem.validate (video_item_kwargs d))) docs w
        with
        | (Ok items, w') => (Ok items, w')
        | (Raise e, w') => (Raise (HTTPException 500 (PyExn.str e)), w')
        end
    end.
Proof.
  intros docs. unfold list_videos, try_except, bind.
  destruct (store_fault w) as [msg |] eqn:Hstore.
  - now rewrite (get_documents_faulty _ _ _ _ _ Hstore).
  - rewrite (get_documents_unfiltered _ _ _ Hstore). fold docs.
    destruct (for_each _ docs w) as [[items | e] w']; reflexivity.
Qed.

Lemma for_each_validate docs (w : World) :
  (exists items,
     for_each (fun d => lift_result (VideoItem.validate (video_item_kwargs d))) docs w
     = (Ok items, w) /\
     Forall2 (fun d item => VideoItem.validate (video_item_kwargs d) = Ok item) docs items) \/
  (exists d e,
     d ∈ docs /\ VideoItem.validate (video_item_kwargs d) = Raise e /\
     for_each (fun d => lift_result (VideoItem.validate (video_item_kwargs d))) docs w
     = (Raise e, w)).
Proof.
  apply (for_each_pure
           (fun d => lift_result (VideoItem.validate (video_item_kwargs d)))
           (fun d => VideoItem.validate (video_item_kwargs d))).
  reflexivity.
Qed.

(** X5. The two listings only read.  Whatever the store holds and whether
    the listing succeeds or fails, [get_chat_messages] and [list_videos]
    leave the world (collections, upload directory, identifiers) exactly as
    it was; and when the store raises, both raise a 500 whose detail is the
    text of that exception. *)
Theorem listings_only_read limit w :
  snd (get_chat_messages limit w) = w /\
  snd (list_videos limit w) = w /\
  (forall msg,
     store_fault w = Some msg ->
     fst (get_chat_messages limit w) = Raise (HTTPException 500 msg) /\
     fst (list_videos limit w) = Raise (HTTPException 500 msg)).
Proof.
  rewrite get_chat_messages_run, list_videos_run.
  destruct (store_fault w) as [msg |] eqn:Hstore.
  - split; [reflexivity |]. split; [reflexivity |].
    intros msg' [= <-]. split; reflexivity.
  - split; [reflexivity |]. split; [| discriminate].
    destruct (for_each_validate
                (firstn (Z.to_nat (default 50 limit)) (documents_of w "videoitem")) w)
      as [(items & -> & _) | (d & e & _ & _ & ->)]; reflexivity.
Qed.

Lemma listings_only_read_witness :
  let w := Sample.with_store_fault "timed out"
             (SampleVideos.store [SampleVideos.without_title]) in
  fst (get_chat_messages None w) = Raise (HTTPException 500 "timed out") /\
  fst (list_videos (Some 5) w) = Raise (HTTPException 500 "timed out").
Proof.
  intros w.
  destruct (listings_only_read None w) as (_ & _ & H1).
  destruct (listings_only_read (Some 5) w) as (_ & _ & H2).
  split; [apply (H1 "timed out" eq_refl) | apply (H2 "timed out" eq_refl)].
Defined.

(** X6. The video listing is all or nothing.  With a store that answers,
    either every record fetched (the first [limit] ones of "videoitem")
    passes [VideoItem] and the listing returns one item for each, or one of
    them does not and the whole listing is a 500: no partial list is ever
    returned. *)
Theorem list_videos_all_or_nothing limit w :
  store_fault w = None ->
  let docs := firstn (Z.to_nat (default 50 limit)) (documents_of w "videoitem") in
  (exists items,
     fst (list_videos limit w) = Ok items /\
     List.length items = List.length docs /\
     Forall (fun d => VideoItem.valid (video_item_kwargs d) = true) docs) \/
  (exists d detail,
     d ∈ docs /\ VideoItem.valid (video_item_kwargs d) = false /\
     fst (list_videos limit w) = Raise (HTTPException 500 detail)).
Proof.
  intros Hstore docs. rewrite list_videos_run. rewrite Hstore. fold docs.
  destruct (for_each_validate docs w) as [(items & -> & Hall) | (d & e & Hin & Hd & ->)].
  - left. exists items. split; [reflexivity |].
    split; [symmetry; eapply Forall2_length; exact Hall |].
    clear -Hall. induction Hall as [| d item docs items Hd _ IH]; constructor; [| exact IH].
    unfold VideoItem.valid. now rewrite Hd.
  - right. exists d, (PyExn.str e). split; [exact Hin |].
    split; [| reflexivity]. unfold VideoItem.valid. now rewrite Hd.
Qed.

Lemma list_videos_all_or_nothing_witness :
  (exists items,
     fst (list_videos (Some 1)
            (SampleVideos.store [SampleVideos.with_string; SampleVideos.without_title]))
     = Ok items /\ List.length items = 1%nat) /\
  (exists detail,
     fst (list_videos (Some 2)
            (SampleVideos.store [SampleVideos.with_string; SampleVideos.without_title]))
     = Raise (HTTPException 500 detail)).
Proof.
  split.
  - destruct (list_videos_all_or_nothing (Some 1)
                (SampleVideos.store [SampleVideos.with_string; SampleVideos.without_title])
                eq_refl)
      as [(items & Hrun & Hlen & _) | (d & detail & _ & _ & Hrun)].
    + exists items. split; [exact Hrun | exact Hlen].
    + discriminate Hrun.
  - destruct (list_videos_all_or_nothing (Some 2)
                (SampleVideos.store [SampleVideos.with_string; SampleVideos.without_title])
                eq_refl)
      as [(items & Hrun & _) | (d & detail & _ & _ & Hrun)].
    + discriminate Hrun.
    + exists detail. exact Hrun.
Defined.

Lemma validate_kwargs_inv d item :
  VideoItem.validate (video_item_kwargs d) = Ok item ->
  dict_get_default d "title" (VStr "") = VStr (VideoItem.title item) /\
  (2 <= PyStr.len (VideoItem.title item) <= 140)%nat /\
  dict_get_default d "url" (VStr "") = VStr (VideoItem.url item) /\
  optional_is (Some (dict_get d "thumbnail")) (VideoItem.thumbnail item) /\
  optional_is (Some (dict_get d "description")) (VideoItem.description item) /\
  at_most 500 (VideoItem.description item).
Proof.
  destruct item as [ti u th de cr]. intros H.
  apply VideoItem_validate_spec in H as (Hti & Hlen & Hu & Hth & Hde & Hde' & _).
  rewrite video_item_kwargs_title in Hti. rewrite video_item_kwargs_url in Hu.
  rewrite video_item_kwargs_thumbnail in Hth. rewrite video_item_kwargs_description in Hde.
  injection Hti as Hti. injection Hu as Hu.
  cbn [VideoItem.title VideoItem.url VideoItem.thumbnail VideoItem.description].
  repeat split; try assumption; lia.
Qed.

Lemma optional_is_dict_get (d : Document) key r :
  optional_is (Some (dict_get d key)) r -> optional_is (d !! key) r.
Proof.
  unfold optional_is, dict_get. destruct r as [s |].
  - destruct (d !! key) as [v |]; cbn; [trivial | discriminate].
  - destruct (d !! key) as [v |]; cbn.
    + intros [H | H]; [discriminate H | right; exact H].
    + intros _. now left.
Qed.

(** X7. What a listed video shows of the stored record.  In a listing that
    succeeds, every item has the stored title, which is a string of 2 to 140
    characters (a record with no title, or another one, is never listed);
    its url is the stored string, or the empty string when the record has no
    url; its thumbnail and description are the stored strings, or null when
    the field is absent or null; the description has at most 500
    characters. *)
Theorem list_videos_fields limit w items :
  fst (list_videos limit w) = Ok items ->
  Forall2 (fun (d : Document) item =>
             d !! "title" = Some (VStr (VideoItem.title item)) /\
             (2 <= PyStr.len (VideoItem.title item) <= 140)%nat /\
             default (VStr "") (d !! "url") = VStr (VideoItem.url item) /\
             optional_is (d !! "thumbnail") (VideoItem.thumbnail item) /\
             optional_is (d !! "description") (VideoItem.description item) /\
             at_most 500 (VideoItem.description item))
          (firstn (Z.to_nat (default 50 limit)) (documents_of w "videoitem")) items.
Proof.
  rewrite list_videos_run.
  destruct (store_fault w) as [msg |]; [discriminate |].
  destruct (for_each_validate
              (firstn (Z.to_nat (default 50 limit)) (documents_of w "videoitem")) w)
    as [(items' & -> & Hall) | (d & e & _ & _ & ->)]; [| discriminate].
  intros [= <-].
  eapply Forall2_impl; [exact Hall |].
  intros d item Hitem.
  apply validate_kwargs_inv in Hitem as (Hti & Hlen & Hu & Hth & Hde & Hde').
  split; [| split; [exact Hlen |]; split; [exact Hu |]; split; [| split]].
  - unfold dict_get_default in Hti. destruct (d !! "title") as [v |]; cbn in Hti.
    + now rewrite Hti.
    + injection Hti as Hti. rewrite <- Hti in Hlen. cbn in Hlen. lia.
  - now apply optional_is_dict_get.
  - now apply optional_is_dict_get.
  - exact Hde'.
Qed.

Lemma list_videos_fields_witness :
  exists items,
    fst (list_videos None
           (SampleVideos.store [SampleVideos.with_string; SampleVideos.without_url])) = Ok items /\
    List.map VideoItem.url items = ["https://example.org/b.mp4"; ""] /\
    Forall2 (fun (d : Document) item => d !! "title" = Some (VStr (VideoItem.title item)))
            [SampleVideos.with_string; SampleVideos.without_url] items.
Proof.
  eexists. split; [reflexivity |]. split; [reflexivity |].
  pose proof (list_videos_fields None
                (SampleVideos.store [SampleVideos.with_string; SampleVideos.without_url])
                _ eq_refl) as H.
  eapply Forall2_impl; [exact H |].
  intros d item (Hti & _). exact Hti.
Defined.

(** ** More on the upload *)

Lemma upload_video_cases title description file w :
  let ext := PyStr.lower (PurePosixPath.suffix (filename file)) in
  let name := uuid4_hex w (uuid4_calls w) ++ ext in
  let w' := snd (upload_video title description file w) in
  w' = w \/
  (ext ∈ ALLOWED_SUFFIXES /\
   (upload_dir w' = upload_dir w \/
    upload_dir w' = <[name := file_bytes file]> (upload_dir w) \/
    upload_dir w' = <[name := []]> (upload_dir w)) /\
   (collections w' = collections w \/
    collections w'
    = <["videoitem" := (documents_of w "videoitem" ++
                          [upload_payload title ("/uploads/videos/" ++ name) description])%list]>
        (collections w))).
Proof.
  intros ext name w'. subst w'.
  destruct (decide (ext ∈ ALLOWED_SUFFIXES)) as [Hext | Hext].
  - right. split; [exact Hext |].
    rewrite upload_video_checked by exact Hext.
    unfold try_except, bind, uuid4, write_file, create_document; cbn.
    destruct (disk w); cbn.
    + destruct (store_fault w); cbn; (split; [right; left; reflexivity |]).
      * now left.
      * now right.
    + split; now left.
    + split; [right; right; reflexivity | now left].
  - left. now rewrite upload_video_rejected.
Qed.

(** X8. An upload touches one file name and one collection only.  Whatever
    the outcome (accepted, rejected, disk or store failing), every file of
    the upload directory other than the generated name, and every collection
    other than "videoitem", is as it was before. *)
Theorem upload_video_frame title description file w :
  let name := uuid4_hex w (uuid4_calls w)
              ++ PyStr.lower (PurePosixPath.suffix (filename file)) in
  let w' := snd (upload_video title description file w) in
  (forall other, other <> name -> upload_dir w' !! other = upload_dir w !! other) /\
  (forall c, c <> "videoitem" -> documents_of w' c = documents_of w c).
Proof.
  intros name w'. subst name w'.
  destruct (upload_video_cases title description file w)
    as [Hsame | (_ & Hdir & Hcoll)].
  - rewrite Hsame. split; reflexivity.
  - split.
    + intros other Hother.
      destruct Hdir as [-> | [-> | ->]]; [reflexivity | |]; now rewrite lookup_insert_ne.
    + intros c Hc. unfold documents_of.
      destruct Hcoll as [-> | ->]; [reflexivity |]. now rewrite lookup_insert_ne.
Qed.

Lemma upload_video_frame_witness :
  let w := set_upload_dir {[ "older.mp4" := [Byte.x09] ]}
             (Sample.with_collection "chatmessage"
                [ {[ "name" := VStr "Eva"; "content" := VStr "Dobry den" ]} ] Sample.fresh) in
  let w' := snd (upload_video "Prejav" None (Sample.clip "older.mp4") w) in
  upload_dir w' !! "older.mp4" = Some [Byte.x09] /\
  documents_of w' "chatmessage" = documents_of w "chatmessage".
Proof.
  intros w w'.
  destruct (upload_video_frame "Prejav" None (Sample.clip "older.mp4") w) as (Hfiles & Hcolls).
  split.
  - subst w'. rewrite (Hfiles "older.mp4"); [reflexivity | discriminate].
  - apply Hcolls. discriminate.
Defined.

Lemma app_inj_same_length (a b x y : string) :
  String.length a = String.length b -> a ++ x = b ++ y -> a = b.
Proof.
  revert b. induction a as [| c a IH]; intros [| c' b] Hlen H; try discriminate Hlen.
  - reflexivity.
  - cbn in H. injection H as -> H. injection Hlen as Hlen. f_equal. now apply IH.
Qed.

(** X9. Two uploads in a row never share a file.  When both are accepted and
    the two identifiers drawn are different identifiers of the same length
    (as two [uuid4().hex] are), the two files are stored under different
    names and both are in the upload directory with their own bytes
    afterwards, also when the caller gave the same file name twice; the two
    records are the last two of the collection, in the order of the
    uploads. *)
Theorem upload_video_twice t1 d1 f1 t2 d2 f2 w r1 w1 r2 w2 :
  upload_video t1 d1 f1 w = (Ok r1, w1) ->
  upload_video t2 d2 f2 w1 = (Ok r2, w2) ->
  let hex1 := uuid4_hex w (uuid4_calls w) in
  let hex2 := uuid4_hex w (S (uuid4_calls w)) in
  hex1 <> hex2 ->
  String.length hex1 = String.length hex2 ->
  let name1 := hex1 ++ PyStr.lower (PurePosixPath.suffix (filename f1)) in
  let name2 := hex2 ++ PyStr.lower (PurePosixPath.suffix (filename f2)) in
  name1 <> name2 /\
  upload_dir w2 !! name1 = Some (file_bytes f1) /\
  upload_dir w2 !! name2 = Some (file_bytes f2) /\
  documents_of w2 "videoitem"
  = (documents_of w "videoitem" ++ [UploadResponse.item r1; UploadResponse.item r2])%list.
Proof.
  intros H1 H2 hex1 hex2 Hne Hlen name1 name2.
  destruct (upload_video_ok_inv _ _ _ _ _ _ H1) as (Hext1 & Hdisk1 & Hstore1).
  rewrite (upload_video_accepted _ _ _ _ Hext1 Hdisk1 Hstore1) in H1.
  injection H1 as <- <-.
  destruct (upload_video_ok_inv _ _ _ _ _ _ H2) as (Hext2 & Hdisk2 & Hstore2).
  rewrite (upload_video_accepted _ _ _ _ Hext2 Hdisk2 Hstore2) in H2.
  injection H2 as <- <-.
  assert (Hnames : name1 <> name2).
  { intros Heq. apply Hne. eapply app_inj_same_length; [exact Hlen | exact Heq]. }
  split; [exact Hnames |].
  cbn [after_upload upload_dir uuid4_hex uuid4_calls]. fold hex1 hex2 name1 name2.
  split; [| split].
  - rewrite lookup_insert_ne by congruence. apply lookup_insert_eq.
  - apply lookup_insert_eq.
  - rewrite !documents_of_after_upload. cbn [UploadResponse.item].
    rewrite <- app_assoc. reflexivity.
Qed.

Lemma upload_video_twice_witness :
  exists r1 w1 r2 w2,
    upload_video "Prejav" None (Sample.clip "video.mp4") Sample.fresh = (Ok r1, w1) /\
    upload_video "Debata" None (mkUploadFile "video.mp4" [Byte.x07]) w1 = (Ok r2, w2) /\
    upload_dir w2 !! "0123456789abcdef0123456789abcde0.mp4"
    = Some (file_bytes (Sample.clip "video.mp4")) /\
    upload_dir w2 !! "0123456789abcdef0123456789abcde1.mp4" = Some [Byte.x07].
Proof.
  eexists _, _, _, _. split; [reflexivity |]. split; [reflexivity |].
  destruct (upload_video_twice "Prejav" None (Sample.clip "video.mp4")
              "Debata" None (mkUploadFile "video.mp4" [Byte.x07])
              Sample.fresh _ _ _ _ eq_refl eq_refl)
    as (_ & Hfirst & Hsecond & _); [discriminate | reflexivity |].
  split; [exact Hfirst | exact Hsecond].
Defined.

Lemma contains_char_cons c x (s : string) :
  PyStr.contains (String c "") (String x s)
  = Ascii.eqb c x || PyStr.contains (String c "") s.
Proof. cbn. destruct s; now rewrite andb_true_r. Qed.

Lemma contains_char_app c (a b : string) :
  PyStr.contains (String c "") (a ++ b)
  = PyStr.contains (String c "") a || PyStr.contains (String c "") b.
Proof.
  induction a as [| x a IH]; [reflexivity |].
  change (String x a ++ b) with (String x (a ++ b)).
  now rewrite !contains_char_cons, IH, orb_assoc.
Qed.

Lemma allowed_suffix_has_no_separator ext :
  ext ∈ ALLOWED_SUFFIXES -> PyStr.contains "/" ext = false.
Proof.
  unfold ALLOWED_SUFFIXES. intros H.
  repeat (apply elem_of_cons in H as [-> | H]; [reflexivity |]).
  inversion H.
Qed.

(** X10. The stored name never has a path separator.  For an accepted upload,
    whatever file name the caller sent (slashes and dots included), the name
    the file is stored under has no "/" as soon as the generated identifier
    has none; the file lands in the upload directory itself and the url is
    "/uploads/videos/" followed by that name. *)
Theorem upload_video_name_has_no_separator title description file w resp w' :
  upload_video title description file w = (Ok resp, w') ->
  PyStr.contains "/" (uuid4_hex w (uuid4_calls w)) = false ->
  exists name,
    upload_dir w' = <[name := file_bytes file]> (upload_dir w) /\
    UploadResponse.item resp !! "url" = Some (VStr ("/uploads/videos/" ++ name)) /\
    PyStr.contains "/" name = false.
Proof.
  intros H Hhex.
  destruct (upload_video_ok_inv _ _ _ _ _ _ H) as (Hext & Hdisk & Hstore).
  rewrite (upload_video_accepted _ _ _ _ Hext Hdisk Hstore) in H.
  injection H as <- <-.
  eexists. split; [reflexivity |]. split; [reflexivity |].
  rewrite contains_char_app, Hhex. now apply allowed_suffix_has_no_separator.
Qed.

Lemma upload_video_name_has_no_separator_witness :
  exists resp w' name,
    upload_video "Prejav" None (Sample.clip "../../etc/cron.d/job.mp4") Sample.fresh
    = (Ok resp, w') /\
    upload_dir w' = <[name := file_bytes (Sample.clip "x")]> ∅ /\
    PyStr.contains "/" name = false.
Proof.
  eexists _, _.
  destruct (upload_video_name_has_no_separator "Prejav" None
              (Sample.clip "../../etc/cron.d/job.mp4") Sample.fresh _ _ eq_refl eq_refl)
    as (name & Hdir & _ & Hname).
  exists name. split; [reflexivity |]. split; [exact Hdir | exact Hname].
Defined.

(** A file name without a dot has no suffix. *)

Lemma rfind_absent c (s : string) :
  PyStr.contains (String c "") s = false -> PyStr.rfind c s = None.
Proof.
  induction s as [| x s IH]; [reflexivity |].
  rewrite contains_char_cons. intros H. apply orb_false_elim in H as [Hx Hs].
  cbn. rewrite (IH Hs). rewrite Ascii.eqb_sym. now rewrite Hx.
Qed.

Lemma split_aux_without c sep (s cur : string) :
  PyStr.contains (String c "") cur = false ->
  PyStr.contains (String c "") s = false ->
  Forall (fun x => PyStr.contains (String c "") x = false) (PyStr.split_aux sep cur s).
Proof.
  revert cur. induction s as [| x s IH]; intros cur Hcur Hs; cbn.
  - now repeat constructor.
  - rewrite contains_char_cons in Hs. apply orb_false_elim in Hs as [Hx Hs].
    destruct (Ascii.eqb x sep).
    + constructor; [exact Hcur |]. now apply IH.
    + apply IH; [| exact Hs].
      rewrite contains_char_app, Hcur, contains_char_cons, Hx. reflexivity.
Qed.

Lemma last_Forall {A} (P : A -> Prop) (l : list A) (d : A) :
  Forall P l -> P d -> P (List.last l d).
Proof.
  intros Hl Hd. induction Hl as [| x l Hx Hl IH]; [exact Hd |].
  destruct l; [exact Hx | exact IH].
Qed.

Lemma suffix_without_dot (p : string) :
  PyStr.contains "." p = false -> PurePosixPath.suffix p = "".
Proof.
  intros Hp. unfold PurePosixPath.suffix.
  assert (Hname : PyStr.contains "." (PurePosixPath.name p) = false).
  { unfold PurePosixPath.name, PurePosixPath.parts.
    apply (last_Forall (fun x => PyStr.contains "." x = false)); [| reflexivity].
    apply Forall_forall. intros x Hx.
    apply list_elem_of_In, filter_In in Hx as [Hx _]. apply list_elem_of_In in Hx.
    pose proof (split_aux_without "."%char "/"%char p "" eq_refl Hp) as Hall.
    rewrite Forall_forall in Hall. now apply Hall. }
  now rewrite (rfind_absent _ _ Hname).
Qed.

(** X11. A file name with no dot in it is never accepted.  Whatever else the
    request holds, the upload is rejected with the 400 of the format check
    and the world is as before. *)
Theorem upload_video_without_extension title description file w :
  PyStr.contains "." (filename file) = false ->
  upload_video title description file w
  = (Raise (HTTPException 400 UNSUPPORTED_DETAIL), w).
Proof.
  intros H. apply upload_video_rejected.
  rewrite (suffix_without_dot _ H). apply (bool_decide_unpack _). reflexivity.
Qed.

Lemma upload_video_without_extension_witness :
  http_status (fst (upload_video "Prejav" None (Sample.clip "videos/mp4") Sample.fresh)) = 400.
Proof.
  now rewrite (upload_video_without_extension "Prejav" None (Sample.clip "videos/mp4")
                 Sample.fresh eq_refl).
Defined.

(** ** Storing, then listing *)

Lemma for_each_pure_ok {S A B} (g : A -> M S B) (f : A -> Result B) xs ys (s : S) :
  (forall x s0, g x s0 = (f x, s0)) ->
  Forall2 (fun x y => f x = Ok y) xs ys ->
  for_each g xs s = (Ok ys, s).
Proof.
  intros Hg Hall. induction Hall as [| x y xs ys Hx _ IH]; [reflexivity |].
  rewrite (for_each_cons_pure g f x xs s Hg), Hx, IH. reflexivity.
Qed.

Lemma list_videos_of_items limit w items :
  store_fault w = None ->
  Forall2 (fun d item => VideoItem.validate (video_item_kwargs d) = Ok item)
          (firstn (Z.to_nat (default 50 limit)) (documents_of w "videoitem")) items ->
  list_videos limit w = (Ok items, w).
Proof.
  intros Hstore Hall. rewrite list_videos_run, Hstore.
  rewrite (for_each_pure_ok _ (fun d => VideoItem.validate (video_item_kwargs d)) _ items);
    [reflexivity | reflexivity | exact Hall].
Qed.

Lemma list_videos_items_inv limit w items :
  fst (list_videos limit w) = Ok items ->
  store_fault w = None /\
  Forall2 (fun d item => VideoItem.validate (video_item_kwargs d) = Ok item)
          (firstn (Z.to_nat (default 50 limit)) (documents_of w "videoitem")) items.
Proof.
  rewrite list_videos_run.
  destruct (store_fault w) as [msg |]; [discriminate |].
  destruct (for_each_validate
              (firstn (Z.to_nat (default 50 limit)) (documents_of w "videoitem")) w)
    as [(items' & -> & Hall) | (d & e & _ & _ & ->)]; [| discriminate].
  intros [= <-]. split; [reflexivity | exact Hall].
Qed.

Lemma upload_payload_kwargs title url_path description :
  video_item_kwargs (upload_payload title url_path description) !! "title"
  = Some (VStr title) /\
  video_item_kwargs (upload_payload title url_path description) !! "url"
  = Some (VStr url_path) /\
  video_item_kwargs (upload_payload title url_path description) !! "thumbnail"
  = Some VNone /\
  video_item_kwargs (upload_payload title url_path description) !! "description"
  = Some (VStr (or_empty description)) /\
  video_item_kwargs (upload_payload title url_path description) !! "created_at"
  = Some VNone.
Proof. repeat split; reflexivity. Qed.

(** ** The response model of the chat route *)

Lemma route_get_chat_messages_run limit w :
  route_get_chat_messages limit w
  = match get_chat_messages limit w with
    | (Ok out, w') =>
        for_each
          (fun r =>
             match ChatMessage.validate r with
             | Ok a => ret a
             | Raise (ValidationError _ errors) => raise (ResponseValidationError errors)
             | Raise e => raise e
             end) out w'
    | (Raise e, w') => (Raise e, w')
    end.
Proof. reflexivity. Qed.

Lemma chat_response_pure (r : Document) (w : World) :
  match ChatMessage.validate r with
  | Ok a => ret a
  | Raise (ValidationError _ errors) => raise (ResponseValidationError errors)
  | Raise e => raise e
  end w = (chat_response r, w).
Proof.
  unfold chat_response. destruct (ChatMessage.validate r) as [a | e]; [reflexivity |].
  destruct e; reflexivity.
Qed.

Lemma chat_response_raises r e :
  chat_response r = Raise e -> exists errors, e = ResponseValidationError errors.
Proof.
  unfold chat_response, ChatMessage.validate.
  destruct (Field.required_str _ _ (r !! "name")) as [? | n];
    destruct (Field.required_str _ _ (r !! "content")) as [? | c];
    intros [= <-]; eexists; reflexivity.
Qed.

Lemma chat_response_without_content (d : Document) :
  default (VStr "") (d !! "content") = VStr "" ->
  exists e,
    chat_response {[ "name" := dict_get_default d "name" (VStr "Anonym");
                     "content" := dict_get_default d "content" (VStr "") ]} = Raise e.
Proof.
  intros Hd. unfold chat_response, ChatMessage.validate.
  change (({[ "name" := dict_get_default d "name" (VStr "Anonym");
              "content" := dict_get_default d "content" (VStr "") ]} : Document) !! "content")
    with (Some (dict_get_default d "content" (VStr ""))).
  replace (dict_get_default d "content" (VStr "")) with (VStr "")
    by (symmetry; exact Hd).
  destruct (Field.required_str _ _ _) as [? | n]; eexists; reflexivity.
Qed.

(** X15. Behind the response model of the chat route ([List[ChatMessage]]) the
    empty-string default of the content never reaches a caller.  With a store
    that answers, if one of the records fetched has no content, or an empty
    one, the route answers 500 with a response validation error, whatever the
    other records are. *)
Theorem route_get_chat_messages_without_content limit w (d : Document) :
  store_fault w = None ->
  d ∈ firstn (Z.to_nat (default 30 limit)) (documents_of w "chatmessage") ->
  d !! "content" = None \/ d !! "content" = Some (VStr "") ->
  exists errors,
    fst (route_get_chat_messages limit w) = Raise (ResponseValidationError errors) /\
    http_status (fst (route_get_chat_messages limit w)) = 500.
Proof.
  intros Hstore Hin Hd.
  rewrite route_get_chat_messages_run, get_chat_messages_run, Hstore.
  set (record := fun d : Document =>
         ({[ "name" := dict_get_default d "name" (VStr "Anonym");
             "content" := dict_get_default d "content" (VStr "") ]} : Document)).
  set (docs := firstn _ _) in *.
  match goal with
  | |- context [for_each ?g ?xs ?s] =>
      destruct (for_each_pure g chat_response xs s chat_response_pure)
        as [(ys & _ & Hall) | (x & e & _ & Hx & Hrun)]
  end.
  - exfalso.
    destruct (chat_response_without_content d) as (e & He).
    { destruct Hd as [-> | ->]; reflexivity. }
    apply list_elem_of_lookup in Hin as [i Hi].
    assert (Hi' : List.map record docs !! i = Some (record d)).
    { change (List.map record docs) with (record <$> docs).
      now rewrite list_lookup_fmap, Hi. }
    destruct (Forall2_lookup_l _ _ _ _ _ Hall Hi') as (y & _ & Hy).
    unfold record in Hy. rewrite He in Hy. discriminate Hy.
  - apply chat_response_raises in Hx as (errors & ->).
    exists errors. rewrite Hrun. split; reflexivity.
Qed.

Lemma route_get_chat_messages_without_content_witness :
  let w := Sample.with_collection "chatmessage"
             [ {[ "name" := VStr "Eva"; "content" := VStr "Dobry den" ]};
               {[ "name" := VStr "Jan" ]} ] Sample.fresh in
  exists errors,
    fst (route_get_chat_messages None w) = Raise (ResponseValidationError errors).
Proof.
  intros w.
  destruct (route_get_chat_messages_without_content None w {[ "name" := VStr "Jan" ]} eq_refl)
    as (errors & H & _).
  - apply list_elem_of_further, list_elem_of_here.
  - left. reflexivity.
  - exists errors. exact H.
Defined.

(** ** The entries of the diagnostic response *)

(** X16. In the response of [test_database] the entries [database_url] and
    [database_name] tell only whether the environment variables DATABASE_URL
    and DATABASE_NAME are set to something not empty: neither the name of
    the database nor the "Configured" mark of the probe ever comes out.  The
    entry [connection_status] is "Connected" exactly when there is a database
    handle whose name could be read without an exception. *)
Theorem test_database_entries w :
  exists r,
    fst (test_database w) = Ok r /\
    TestResponse.database_url r
    = Some (if getenv_truthy (environ w) "DATABASE_URL" then "✅ Set" else "❌ Not Set") /\
    TestResponse.database_name r
    = Some (if getenv_truthy (environ w) "DATABASE_NAME" then "✅ Set" else "❌ Not Set") /\
    (TestResponse.connection_status r = "Connected" \/
     TestResponse.connection_status r = "Not Connected") /\
    (TestResponse.connection_status r = "Connected" <->
     exists d, db w = Some d /\ forall e, db_name d <> AttrRaises e).
Proof.
  unfold test_database.
  destruct (db w) as [[name listing] |].
  - destruct name as [v | | e], listing as [names | e']; eexists;
      (split; [reflexivity |]); (split; [reflexivity |]); (split; [reflexivity |]); cbn;
      (split; [(now left) || (now right) |]).
    1-4: split; [intros _; eexists; split; [reflexivity | discriminate] | reflexivity].
    all: split; [discriminate |];
      intros (d & [= <-] & Hno); now destruct (Hno e).
  - eexists. split; [reflexivity |]. split; [reflexivity |]. split; [reflexivity |]. cbn.
    split; [now right |]. split; [discriminate | intros (d & Hd & _); discriminate Hd].
Qed.

(** ** What the routes keep true of the store *)

Lemma list_videos_world limit w : snd (list_videos limit w) = w.
Proof.
  rewrite list_videos_run. destruct (store_fault w); [reflexivity |].
  destruct (for_each_validate
              (firstn (Z.to_nat (default 50 limit)) (documents_of w "videoitem")) w)
    as [(items & -> & _) | (d & e & _ & _ & ->)]; reflexivity.
Qed.

Lemma route_get_chat_messages_world limit w : snd (route_get_chat_messages limit w) = w.
Proof.
  rewrite route_get_chat_messages_run, get_chat_messages_run.
  destruct (store_fault w); [reflexivity |].
  match goal with
  | |- context [for_each ?g ?xs ?s] =>
      destruct (for_each_pure g chat_response xs s chat_response_pure)
        as [(ys & -> & _) | (x & e & _ & _ & ->)]
  end; reflexivity.
Qed.

Lemma serve_keeps_store_valid validate_email req w :
  (forall s s', validate_email s = Some s' -> validate_email s' = Some s') ->
  store_valid validate_email w ->
  store_valid validate_email (serve validate_email req w).
Proof.
  intros Hnormal Hw. destruct req as [body | limit | body | limit | body |]; cbn [serve].
  - now apply route_post_contact_keeps_valid.
  - now rewrite route_get_chat_messages_world.
  - now apply route_post_chat_message_keeps_valid.
  - now rewrite list_videos_world.
  - now apply route_create_video_keeps_valid.
  - exact Hw.
Qed.

(** X17. The routes that take a model keep the store valid.  Starting from a
    store in which every record of "contactmessage", "chatmessage" and
    "videoitem" satisfies the model of its collection, any sequence of
    contact posts, chat posts, metadata-only video creations, listings and
    diagnostic requests, with bodies of any content, leaves such a store
    (given an address validator that accepts the addresses it returns). *)
Theorem serve_all_keeps_store_valid validate_email reqs w :
  (forall s s', validate_email s = Some s' -> validate_email s' = Some s') ->
  store_valid validate_email w ->
  store_valid validate_email (serve_all validate_email reqs w).
Proof.
  intros Hnormal. unfold serve_all. revert w.
  induction reqs as [| req reqs IH]; intros w Hw; [exact Hw |].
  cbn [fold_left]. apply IH. now apply serve_keeps_store_valid.
Qed.

Lemma sample_validate_email_normal s s' :
  sample_validate_email s = Some s' -> sample_validate_email s' = Some s'.
Proof.
  unfold sample_validate_email.
  destruct (PyStr.contains "@" s) eqn:Hs; [| discriminate].
  intros [= <-]. now rewrite Hs.
Qed.

Lemma serve_all_keeps_store_valid_witness :
  let reqs :=
    [ PostChat {[ "name" := VStr "Eva"; "content" := VStr "Dobry den" ]};
      PostChat {[ "name" := VStr "E"; "content" := VStr "kratke meno" ]};
      CreateVideo {[ "title" := VStr "Prejav"; "url" := VStr "https://example.org/a.mp4" ]};
      CreateVideo {[ "title" := VStr "P"; "url" := VStr "https://example.org/b.mp4" ]};
      PostContact {[ "name" := VStr "Jan"; "email" := VStr "jan@example.org";
                     "message" := VStr "Dobry den" ]};
      PostContact {[ "name" := VStr "Jan"; "email" := VStr "bez zavinaca";
                     "message" := VStr "Dobry den" ]};
      ListVideos None; GetChat (Some 5); GetTest ] in
  let w := serve_all sample_validate_email reqs Sample.fresh in
  store_valid sample_validate_email w /\
  List.length (documents_of w "chatmessage") = 1%nat /\
  List.length (documents_of w "videoitem") = 1%nat /\
  List.length (documents_of w "contactmessage") = 1%nat.
Proof.
  intros reqs w. split; [| repeat split; reflexivity].
  apply serve_all_keeps_store_valid; [exact sample_validate_email_normal |].
  repeat split; constructor.
Defined.

Lemma optional_is_kwargs (d : Document) key r :
  optional_is (d !! key) r -> optional_is (Some (dict_get d key)) r.
Proof.
  unfold optional_is, dict_get. destruct r as [s |].
  - now intros ->.
  - intros [-> | ->]; now right.
Qed.

Lemma created_iso_listed (d : Document) :
  optional_is (Some (created_iso (dict_get d "created_at")))
              (created_at_listed (d !! "created_at")).
Proof.
  unfold dict_get. destruct (d !! "created_at") as [[| s | dt] |]; cbn.
  - now right.
  - destruct (String.eqb s ""); cbn; [now right | reflexivity].
  - reflexivity.
  - now right.
Qed.

Lemma valid_record_is_listed (d : Document) :
  VideoItem.valid d = true ->
  exists item, VideoItem.validate (video_item_kwargs d) = Ok item.
Proof.
  unfold VideoItem.valid.
  destruct (VideoItem.validate d) as [[ti u th de cr] |] eqn:Hd; [intros _ | discriminate].
  apply VideoItem_validate_spec in Hd as (Hti & Hlen & Hu & Hth & Hde & Hde' & _).
  exists (VideoItem.mk ti u th de (created_at_listed (d !! "created_at"))).
  apply VideoItem_validate_spec.
  rewrite video_item_kwargs_title, video_item_kwargs_url, video_item_kwargs_thumbnail,
    video_item_kwargs_description, video_item_kwargs_created_at.
  unfold dict_get_default. rewrite Hti, Hu. cbn [default].
  repeat split; try assumption; try lia.
  - now apply optional_is_kwargs.
  - now apply optional_is_kwargs.
  - apply created_iso_listed.
Qed.

Lemma Forall_exists_Forall2 {A B} (R : A -> B -> Prop) (xs : list A) :
  Forall (fun x => exists y, R x y) xs -> exists ys, Forall2 R xs ys.
Proof.
  induction 1 as [| x xs (y & Hy) _ (ys & Hys)].
  - exists []. constructor.
  - exists (y :: ys). now constructor.
Qed.

(** X18. A valid store can always be listed.  When every record of
    "videoitem" satisfies [VideoItem] and the store answers, [list_videos]
    succeeds for every limit and returns as many items as it fetched
    records. *)
Theorem list_videos_of_valid_store validate_email limit w :
  store_valid validate_email w ->
  store_fault w = None ->
  exists items,
    fst (list_videos limit w) = Ok items /\
    List.length items
    = Nat.min (Z.to_nat (default 50 limit)) (List.length (documents_of w "videoitem")).
Proof.
  intros (_ & _ & Hvideos) Hstore.
  apply (Forall_take _ (Z.to_nat (default 50 limit))) in Hvideos.
  destruct (Forall_exists_Forall2
              (fun d item => VideoItem.validate (video_item_kwargs d) = Ok item)
              (firstn (Z.to_nat (default 50 limit)) (documents_of w "videoitem")))
    as (items & Hall).
  { eapply Forall_impl; [exact Hvideos |]. intros d Hd. now apply valid_record_is_listed. }
  exists items. rewrite (list_videos_of_items limit w items Hstore Hall).
  split; [reflexivity |].
  rewrite <- (Forall2_length _ _ _ Hall). apply length_firstn.
Qed.

Lemma list_videos_of_valid_store_witness :
  exists items,
    fst (list_videos (Some 1)
           (SampleVideos.store [SampleVideos.with_string; SampleVideos.without_created_at]))
    = Ok items /\
    List.length items = 1%nat.
Proof.
  destruct (list_videos_of_valid_store sample_validate_email (Some 1)
              (SampleVideos.store [SampleVideos.with_string; SampleVideos.without_created_at]))
    as (items & Hrun & Hlen).
  - repeat split; repeat constructor.
  - reflexivity.
  - exists items. split; [exact Hrun | exact Hlen].
Defined.

(** ** What was stored, when it is listed *)

Lemma optional_is_dump r : optional_is (Some (Field.dump_optional r)) r.
Proof. destruct r as [s |]; cbn; [reflexivity | now right]. Qed.

Lemma list_videos_lookup limit w items i d item :
  fst (list_videos limit w) = Ok items ->
  firstn (Z.to_nat (default 50 limit)) (documents_of w "videoitem") !! i = Some d ->
  VideoItem.validate (video_item_kwargs d) = Ok item ->
  items !! i = Some item.
Proof.
  intros Hlist Hi Hd. apply list_videos_items_inv in Hlist as (_ & Hall).
  destruct (Forall2_lookup_l _ _ _ _ _ Hall Hi) as (y & Hy & Hy').
  rewrite Hd in Hy'. now injection Hy' as <-.
Qed.

Lemma stored_form_kwargs (p d : Document) :
  stored_form p d ->
  video_item_kwargs d !! "title" = Some (default (VStr "") (p !! "title")) /\
  video_item_kwargs d !! "url" = Some (default (VStr "") (p !! "url")) /\
  video_item_kwargs d !! "thumbnail" = Some (default VNone (p !! "thumbnail")) /\
  video_item_kwargs d !! "description" = Some (default VNone (p !! "description")).
Proof.
  intros (H1 & H2 & H3 & H4).
  rewrite video_item_kwargs_title, video_item_kwargs_url, video_item_kwargs_thumbnail,
    video_item_kwargs_description.
  unfold dict_get_default, dict_get. now rewrite H1, H2, H3, H4.
Qed.

(** A record with fields the model accepts is listed with these fields,
    whatever else its stored form holds. *)
Lemma stored_form_listed (p d : Document) ti u th de :
  p !! "title" = Some (VStr ti) ->
  p !! "url" = Some (VStr u) ->
  p !! "thumbnail" = Some (Field.dump_optional th) ->
  p !! "description" = Some (Field.dump_optional de) ->
  (2 <= PyStr.len ti <= 140)%nat ->
  at_most 500 de ->
  stored_form p d ->
  VideoItem.validate (video_item_kwargs d)
  = Ok (VideoItem.mk ti u th de (created_at_listed (d !! "created_at"))).
Proof.
  intros Hti Hu Hth Hde Hlen Hmax Hform.
  destruct (stored_form_kwargs p d Hform) as (K1 & K2 & K3 & K4).
  apply VideoItem_validate_spec.
  rewrite K1, K2, K3, K4, video_item_kwargs_created_at, Hti, Hu, Hth, Hde. cbn [default].
  repeat split; try assumption; try lia; try apply optional_is_dump.
  apply created_iso_listed.
Qed.

(** A record with a title or a description the model refuses is refused in
    every stored form. *)
Lemma stored_form_refused (p d : Document) ti de :
  p !! "title" = Some (VStr ti) ->
  p !! "description" = Some (VStr de) ->
  (PyStr.len ti < 2 \/ 140 < PyStr.len ti \/ 500 < PyStr.len de)%nat ->
  stored_form p d ->
  exists e, VideoItem.validate (video_item_kwargs d) = Raise e.
Proof.
  intros Hti Hde Hbad Hform.
  destruct (stored_form_kwargs p d Hform) as (K1 & _ & _ & K4).
  destruct (VideoItem.validate (video_item_kwargs d)) as [[ti' u' th' de' cr'] | e] eqn:Hd;
    [exfalso | now exists e].
  apply VideoItem_validate_spec in Hd as (Hti' & Hlen & _ & _ & Hde' & Hmax & _).
  rewrite K1, Hti in Hti'. rewrite K4, Hde in Hde'. cbn [default] in *.
  injection Hti' as <-.
  destruct de' as [s |]; cbn in Hde'; [| destruct Hde'; discriminate].
  injection Hde' as <-. cbn in Hmax. lia.
Qed.

(** X12. An upload the model would accept is listed as it was sent.  After
    an accepted upload whose title has 2 to 140 characters and whose
    description has at most 500, every stored form of its record (the record
    itself, or the record with a time stamp or other fields added by the
    store) passes [VideoItem] in [list_videos], and a listing that succeeds
    shows it, at the place the store returns it, with the caller's title, the
    generated url, a null thumbnail and the description (the empty string
    when none was given). *)
Theorem upload_then_list_videos title description file w resp w' :
  upload_video title description file w = (Ok resp, w') ->
  (2 <= PyStr.len title <= 140)%nat ->
  (PyStr.len (default "" description) <= 500)%nat ->
  exists url_path,
    UploadResponse.item resp !! "url" = Some (VStr url_path) /\
    forall d : Document,
      stored_form (UploadResponse.item resp) d ->
      let listed :=
        VideoItem.mk title url_path None (Some (default "" description))
          (created_at_listed (d !! "created_at")) in
      VideoItem.validate (video_item_kwargs d) = Ok listed /\
      forall limit w2 items i,
        fst (list_videos limit w2) = Ok items ->
        firstn (Z.to_nat (default 50 limit)) (documents_of w2 "videoitem") !! i = Some d ->
        items !! i = Some listed.
Proof.
  intros Hup Htitle Hdescr.
  destruct (upload_video_ok_inv _ _ _ _ _ _ Hup) as (Hext & Hdisk & Hstore).
  rewrite (upload_video_accepted _ _ _ _ Hext Hdisk Hstore) in Hup.
  injection Hup as <- <-.
  eexists. split; [reflexivity |].
  intros d Hform listed.
  assert (Hd : VideoItem.validate (video_item_kwargs d) = Ok listed).
  { subst listed. cbn [UploadResponse.item] in Hform.
    eapply (stored_form_listed _ d title _ None (Some (default "" description)));
      try exact Hform; try exact Htitle; try exact Hdescr; try reflexivity.
    unfold upload_payload. rewrite or_empty_default. reflexivity. }
  split; [exact Hd |].
  intros limit w2 items i Hlist Hi. eapply list_videos_lookup; eassumption.
Qed.

Lemma upload_then_list_videos_witness :
  exists resp w',
    upload_video "Áé" None (Sample.clip "prejav.MOV")
      (SampleVideos.store [SampleVideos.with_string]) = (Ok resp, w') /\
    match fst (list_videos None w') with
    | Ok items => items !! 1%nat
    | Raise _ => None
    end
    = Some (VideoItem.mk "Áé" "/uploads/videos/0123456789abcdef0123456789abcde0.mov"
              None (Some "") None).
Proof.
  eexists _, _. split; [reflexivity |].
  destruct (upload_then_list_videos "Áé" None (Sample.clip "prejav.MOV")
              (SampleVideos.store [SampleVideos.with_string]) _ _ eq_refl)
    as (url_path & Hurl & Hforms).
  - vm_compute. lia.
  - vm_compute. lia.
  - injection Hurl as <-.
    destruct (Hforms (upload_payload "Áé"
                        "/uploads/videos/0123456789abcdef0123456789abcde0.mov" None))
      as (_ & Hlisted).
    { repeat split. }
    destruct (fst (list_videos None _)) as [items | e] eqn:Hl.
    + exact (Hlisted None _ items 1%nat Hl eq_refl).
    + vm_compute in Hl. discriminate Hl.
Defined.

(** X13. An upload with a title or a description the model refuses breaks
    the listing.  After an accepted upload whose title has fewer than 2 or
    more than 140 characters, or whose description has more than 500, every
    listing that fetches a stored form of its record, from a store that
    answers, is a 500. *)
Theorem upload_then_list_videos_fails title description file w resp w' :
  upload_video title description file w = (Ok resp, w') ->
  (PyStr.len title < 2 \/ 140 < PyStr.len title \/
   500 < PyStr.len (default "" description))%nat ->
  forall (d : Document) limit w2,
    stored_form (UploadResponse.item resp) d ->
    store_fault w2 = None ->
    d ∈ firstn (Z.to_nat (default 50 limit)) (documents_of w2 "videoitem") ->
    exists detail, fst (list_videos limit w2) = Raise (HTTPException 500 detail).
Proof.
  intros Hup Hbad d limit w2 Hform Hstore2 Hin.
  destruct (upload_video_ok_inv _ _ _ _ _ _ Hup) as (Hext & Hdisk & Hstore).
  rewrite (upload_video_accepted _ _ _ _ Hext Hdisk Hstore) in Hup.
  injection Hup as <- <-. cbn [UploadResponse.item] in Hform.
  assert (Hdescr : upload_payload title
                     ("/uploads/videos/" ++ uuid4_hex w (uuid4_calls w)
                      ++ PyStr.lower (PurePosixPath.suffix (filename file))) description
                   !! "description" = Some (VStr (default "" description))).
  { unfold upload_payload. rewrite or_empty_default. reflexivity. }
  destruct (fun Htitle =>
              stored_form_refused _ d title (default "" description) Htitle Hdescr Hbad Hform)
    as (e & He); [reflexivity |].
  eapply (list_videos_validation_failure limit w2 _ d e); [| exact Hin | exact He].
  rewrite get_documents_unfiltered by exact Hstore2. reflexivity.
Qed.

Lemma upload_then_list_videos_fails_witness :
  exists resp w' detail,
    upload_video "é" None (Sample.clip "prejav.avi")
      (SampleVideos.store [SampleVideos.with_string]) = (Ok resp, w') /\
    fst (list_videos None w') = Raise (HTTPException 500 detail).
Proof.
  eexists _, _.
  destruct (upload_then_list_videos_fails "é" None (Sample.clip "prejav.avi")
              (SampleVideos.store [SampleVideos.with_string]) _ _ eq_refl)
    with (d := upload_payload "é"
                 "/uploads/videos/0123456789abcdef0123456789abcde0.avi" None)
         (limit := @None Z)
         (w2 := snd (upload_video "é" None (Sample.clip "prejav.avi")
                       (SampleVideos.store [SampleVideos.with_string])))
    as (detail & Hlist).
  - left. vm_compute. lia.
  - repeat split.
  - reflexivity.
  - apply list_elem_of_further, list_elem_of_here.
  - exists detail. split; [reflexivity | exact Hlist].
Defined.

Lemma ChatMessage_validate_dump n c msg :
  ChatMessage.validate (ChatMessage.model_dump (ChatMessage.mk n c)) = Ok msg ->
  msg = ChatMessage.mk n c.
Proof.
  unfold ChatMessage.validate.
  change (ChatMessage.model_dump (ChatMessage.mk n c) !! "name") with (Some (VStr n)).
  change (ChatMessage.model_dump (ChatMessage.mk n c) !! "content") with (Some (VStr c)).
  destruct (Field.required_str _ _ (Some (VStr n))) as [? | n'] eqn:Hn; [discriminate |].
  destruct (Field.required_str _ _ (Some (VStr c))) as [? | c'] eqn:Hc; [discriminate |].
  intros [= <-].
  apply required_str_inr in Hn as (Hn & _), Hc as (Hc & _).
  injection Hn as <-. injection Hc as <-. reflexivity.
Qed.

(** X14. A posted chat message is listed as it was posted.  The record
    [post_chat_message] hands to the store has the name and the content of
    the message; wherever the store returns a stored form of it,
    [get_chat_messages] returns at that place a record with that name and
    that content, and the response model of the route gives back the message
    itself when it satisfies [ChatMessage]. *)
Theorem post_chat_message_then_get msg w r w' :
  post_chat_message msg w = (Ok r, w') ->
  create_document "chatmessage" (OfChatMessage msg) w = (Ok (PostResponse.id r), w') /\
  forall (d : Document) limit w2 out i,
    chat_stored_form (to_document (OfChatMessage msg)) d ->
    fst (get_chat_messages limit w2) = Ok out ->
    firstn (Z.to_nat (default 30 limit)) (documents_of w2 "chatmessage") !! i = Some d ->
    exists record : Document,
      out !! i = Some record /\
      record = {[ "name" := VStr (ChatMessage.name msg);
                  "content" := VStr (ChatMessage.content msg) ]} /\
      (ChatMessage.valid (ChatMessage.model_dump msg) = true ->
       chat_response record = Ok msg).
Proof.
  intros Hpost. split.
  - unfold post_chat_message, try_except, bind in Hpost.
    destruct (create_document "chatmessage" (OfChatMessage msg) w) as [[id | e] w1];
      [| discriminate Hpost].
    cbn in Hpost. now injection Hpost as <- <-.
  - intros d limit w2 out i (Hname & Hcontent) Hget Hi.
    rewrite get_chat_messages_run in Hget.
    destruct (store_fault w2); [discriminate Hget |]. cbn in Hget. injection Hget as <-.
    eexists. split.
    + change (List.map ?f ?l) with (f <$> l). rewrite list_lookup_fmap, Hi. reflexivity.
    + unfold dict_get_default. rewrite Hname, Hcontent. cbn [to_document].
      split; [reflexivity |].
      destruct msg as [n c]. unfold ChatMessage.valid, chat_response.
      destruct (ChatMessage.validate (ChatMessage.model_dump (ChatMessage.mk n c)))
        as [[n' c'] |] eqn:Hvalid; [intros _ | intros Hfalse; discriminate Hfalse].
      change (ChatMessage.validate (ChatMessage.model_dump (ChatMessage.mk n c)))
        with (ChatMessage.validate
                {[ "name" := default (VStr "Anonym")
                               (ChatMessage.model_dump (ChatMessage.mk n c) !! "name");
                   "content" := default (VStr "")
                                  (ChatMessage.model_dump (ChatMessage.mk n c) !! "content") ]})
        in Hvalid.
      rewrite Hvalid. f_equal. now apply ChatMessage_validate_dump.
Qed.

Lemma post_chat_message_then_get_witness :
  exists r w' out,
    post_chat_message (ChatMessage.mk "Eva" "Dobrý deň") Sample.fresh = (Ok r, w') /\
    fst (get_chat_messages None w') = Ok out /\
    out !! 0%nat = Some {[ "name" := VStr "Eva"; "content" := VStr "Dobrý deň" ]}.
Proof.
  eexists _, _, _. split; [reflexivity |]. split; [reflexivity |].
  destruct (post_chat_message_then_get (ChatMessage.mk "Eva" "Dobrý deň") Sample.fresh
              _ _ eq_refl) as (_ & Hforms).
  destruct (Hforms (ChatMessage.model_dump (ChatMessage.mk "Eva" "Dobrý deň")) None
              (snd (post_chat_message (ChatMessage.mk "Eva" "Dobrý deň") Sample.fresh))
              _ 0%nat (conj eq_refl eq_refl) eq_refl eq_refl)
    as (record & Hrecord & -> & _).
  exact Hrecord.
Defined.

(** X19. A video created from metadata is listed as it was given, with one
    exception.  The record [create_video] hands to the store is the dump of
    the item; for an item that satisfies the model, every stored form of it
    passes [VideoItem] in [list_videos] and a listing that succeeds shows it,
    at the place the store returns it, with the same title, url, thumbnail
    and description.  Its [created_at] follows what the store holds: when
    that is the one given, it is listed as given, except that an empty string
    comes back as null. *)
Theorem create_video_then_list ti u th de cr w r w' :
  create_video (VideoItem.mk ti u th de cr) w = (Ok r, w') ->
  (2 <= PyStr.len ti <= 140)%nat ->
  at_most 500 de ->
  create_document "videoitem" (OfVideoItem (VideoItem.mk ti u th de cr)) w
  = (Ok (PostResponse.id r), w') /\
  forall d : Document,
    stored_form (VideoItem.model_dump (VideoItem.mk ti u th de cr)) d ->
    let listed := VideoItem.mk ti u th de (created_at_listed (d !! "created_at")) in
    VideoItem.validate (video_item_kwargs d) = Ok listed /\
    (d !! "created_at" = Some (Field.dump_optional cr) ->
     VideoItem.created_at listed
     = match cr with
       | Some s => if String.eqb s "" then None else Some s
       | None => None
       end) /\
    forall limit w2 items i,
      fst (list_videos limit w2) = Ok items ->
      firstn (Z.to_nat (default 50 limit)) (documents_of w2 "videoitem") !! i = Some d ->
      items !! i = Some listed.
Proof.
  intros Hpost Hti Hde. split.
  - unfold create_video, try_except, bind in Hpost.
    destruct (create_document "videoitem" _ w) as [[id | e] w1]; [| discriminate Hpost].
    cbn in Hpost. now injection Hpost as <- <-.
  - intros d Hform listed.
    assert (Hd : VideoItem.validate (video_item_kwargs d) = Ok listed).
    { subst listed.
      eapply (stored_form_listed _ d ti u th de);
        try exact Hform; try exact Hti; try exact Hde; reflexivity. }
    split; [exact Hd |]. split.
    + intros Hcr. subst listed. cbn [VideoItem.created_at]. rewrite Hcr.
      destruct cr as [s |]; reflexivity.
    + intros limit w2 items i Hlist Hi. eapply list_videos_lookup; eassumption.
Qed.

Lemma create_video_then_list_witness :
  exists r w',
    create_video (VideoItem.mk "Prejav" "https://example.org/a.mp4" None
                    (Some "Na námestí") (Some "")) Sample.fresh = (Ok r, w') /\
    fst (list_videos None w')
    = Ok [VideoItem.mk "Prejav" "https://example.org/a.mp4" None (Some "Na námestí") None].
Proof.
  eexists _, _. split; [reflexivity |].
  destruct (create_video_then_list "Prejav" "https://example.org/a.mp4" None
              (Some "Na námestí") (Some "") Sample.fresh _ _ eq_refl)
    as (_ & Hforms).
  - vm_compute. lia.
  - vm_compute. lia.
  - destruct (Hforms (VideoItem.model_dump
                        (VideoItem.mk "Prejav" "https://example.org/a.mp4" None
                           (Some "Na námestí") (Some ""))))
      as (Hvalid & _ & _).
    { repeat split. }
    erewrite list_videos_of_items; [reflexivity | reflexivity |].
    constructor; [exact Hvalid | constructor].
Defined.




